(** * Apple Health export processor: extraction and report aggregation

    A shallow embedding of [apple_health_processor.py] (class
    [HealthDataProcessor]) and [health_data_report.py] (class
    [HealthDataReport]), with the steps of
    [interactive_health_processor.py] and the batch of
    [streamlit_health_processor.py] that connect them.

    Library calls are modelled by what the program observes of them:
    - [ET.iterparse(path, events=("end",))] is a stream of elements that
      either reaches the end of the document or aborts with an exception;
    - a pandas [DataFrame] is an ordered list of named, typed columns;
    - the text parsers behind [pd.to_datetime] and [pd.to_numeric] are
      parameters of the development, and so are the size of a written CSV
      file and the paths at which a file can be created;
    - floating-point reductions ([mean], [std], ...) are kept symbolic.
    Logging has no effect on any result and is left out. *)

From Stdlib Require Import ZArith QArith Ascii.
From stdpp Require Import base option list strings gmap sorting pretty.

Set Default Proof Using "Type".
#[local] Set Warnings "-clear-no-such-hyp".

(** ** Exceptions and results *)

Inductive Exn : Type :=
| ParseError (msg : string)
| OSError (msg : string)
| FileNotFoundError (path : string)
| ValueError (arg : string)
| KeyError (key : string)
| TypeError.

Inductive result (A : Type) : Type :=
| Ok (a : A)
| Raise (e : Exn).
Arguments Ok {A} a.
Arguments Raise {A} e.

Definition rbind {A B : Type} (r : result A) (k : A → result B) : result B :=
  match r with
  | Ok a => k a
  | Raise e => Raise e
  end.

Notation "x ←! r ; k" := (rbind r (λ x, k))
  (at level 20, r at level 100, k at level 200, right associativity,
   format "x  ←!  r ;  '/' k").

(** [try: body except Exception: handler]. *)
Definition try_except {A : Type} (body : result A) (handler : Exn → result A) : result A :=
  match body with
  | Ok a => Ok a
  | Raise e => handler e
  end.

Definition is_ok {A : Type} (r : result A) : bool :=
  match r with Ok _ => true | Raise _ => false end.

Fixpoint mapM {A B : Type} (f : A → result B) (l : list A) : result (list B) :=
  match l with
  | [] => Ok []
  | a :: l' => b ←! f a; bs ←! mapM f l'; Ok (b :: bs)
  end.

(** ** Python strings: [in] and [str.replace] *)

(** [sub in s]. *)
Fixpoint contains (sub s : string) : bool :=
  String.prefix sub s ||
  match s with
  | EmptyString => false
  | String _ s' => contains sub s'
  end.

(** Left-to-right replacement of the non-overlapping occurrences of a
    non-empty [old]; [skip] counts the characters of a matched occurrence
    still to be dropped. *)
Fixpoint replace_go (old new : string) (skip : nat) (s : string) : string :=
  match s with
  | EmptyString => EmptyString
  | String c s' =>
      match skip with
      | S k => replace_go old new k s'
      | O =>
          if String.prefix old s
          then new +:+ replace_go old new (String.length old - 1) s'
          else String c (replace_go old new 0 s')
      end
  end.

(** With an empty [old], Python puts [new] before every character and at
    the end. *)
Fixpoint interleave (new s : string) : string :=
  match s with
  | EmptyString => new
  | String c s' => new +:+ String c (interleave new s')
  end.

Definition str_replace (old new s : string) : string :=
  match old with
  | EmptyString => interleave new s
  | String _ _ => replace_go old new 0 s
  end.

(** [s.split(sep)[0]]: the text before the first occurrence of a non-empty
    [sep], the whole of [s] when there is none. *)
Fixpoint split_head (sep s : string) : string :=
  match s with
  | EmptyString => EmptyString
  | String c s' => if String.prefix sep s then EmptyString else String c (split_head sep s')
  end.

(** [sep.join(l)]. *)
Definition str_join (sep : string) (l : list string) : string := String.concat sep l.

(** ** The XML event stream *)

(** An element as the loops see it: its tag and its attribute dictionary;
    [elem.get(k)] is [attrib elem !! k]. *)
Record Element : Type := mkElement {
  tag : string;
  attrib : gmap string string
}.

Definition get (elem : Element) (key : string) : option string := attrib elem !! key.

(** What iterating over [ET.iterparse] delivers: "end" events one after the
    other, then either the end of the document or an exception raised from
    inside the iteration. [elem.clear()] empties an element once it has been
    inspected; no element is delivered twice, so the loops never read a
    cleared one. *)
Inductive Events : Type :=
| EOF
| Event (elem : Element) (rest : Events)
| Failure (e : Exn).

(** The export file: unreadable (opening it raises) or a stream. *)
Inductive Source : Type :=
| Unreadable (e : Exn)
| Readable (context : Events).

Definition iterparse (src : Source) : result Events :=
  match src with
  | Unreadable e => Raise e
  | Readable context => Ok context
  end.

(** A well-formed document, given by its elements in the order their end
    tags are read. *)
Fixpoint stream (D : list Element) : Events :=
  match D with
  | [] => EOF
  | elem :: D' => Event elem (stream D')
  end.

Definition document (D : list Element) : Source := Readable (stream D).

(** The elements delivered before a failure in the middle of the scan. *)
Fixpoint broken_stream (D : list Element) (e : Exn) : Events :=
  match D with
  | [] => Failure e
  | elem :: D' => Event elem (broken_stream D' e)
  end.

(** ** Python dictionaries

    A [dict] keeps its keys in insertion order; assigning to a key that is
    already present replaces the value where it stands. *)

Fixpoint dict_get {V : Type} (k : string) (d : list (string * V)) : option V :=
  match d with
  | [] => None
  | (k', v) :: d' => if decide (k' = k) then Some v else dict_get k d'
  end.

Fixpoint dict_set {V : Type} (k : string) (v : V) (d : list (string * V)) : list (string * V) :=
  match d with
  | [] => [(k, v)]
  | (k', v') :: d' => if decide (k' = k) then (k, v) :: d' else (k', v') :: dict_set k v d'
  end.

Definition dict_keys {V : Type} (d : list (string * V)) : list string := d.*1.

(** ** Data frames *)

Section Pandas.
(** Absolute times and float64 values, with the text parsers of
    [pd.to_datetime] and [pd.to_numeric]. *)
Context {Timestamp Num : Type}.
Variable strptime : string → option Timestamp.
Variable strtod : string → option Num.

(** A column with its dtype. [None] is Python's [None] in an object
    column, [NaT] in a datetime column and [NaN] in a float column. *)
Inductive Column : Type :=
| ColObject (raw : list (option string))
| ColDatetime (ts : list (option Timestamp))
| ColNumeric (vs : list (option Num)).

Inductive Dtype : Type := object | datetime64 | float64.

Definition dtype (c : Column) : Dtype :=
  match c with
  | ColObject _ => object
  | ColDatetime _ => datetime64
  | ColNumeric _ => float64
  end.

Definition is_numeric (c : Column) : bool :=
  match c with ColNumeric _ => true | _ => false end.

(** [len(df)] and the columns in order. *)
Record DataFrame : Type := mkDataFrame {
  nrows : nat;
  columns : list (string * Column)
}.

(** [pd.DataFrame()] and [pd.DataFrame([])]: no rows, no columns. *)
Definition empty_frame : DataFrame := mkDataFrame 0 [].

(** [pd.DataFrame(records)] for a list of dictionaries with the keys of
    the first one: one object column per key. *)
Definition pd_DataFrame (records : list (list (string * option string))) : DataFrame :=
  mkDataFrame (length records)
    match records with
    | [] => []
    | r :: _ => (λ k, (k, ColObject ((λ r', mjoin (dict_get k r')) <$> records))) <$> dict_keys r
    end.

(** [name in df.columns], [df[name]] and [df[name] = c]. *)
Definition has_column (name : string) (df : DataFrame) : bool :=
  bool_decide (is_Some (dict_get name (columns df))).

Definition getitem (name : string) (df : DataFrame) : result Column :=
  match dict_get name (columns df) with
  | Some c => Ok c
  | None => Raise (KeyError name)
  end.

Definition setitem (name : string) (c : Column) (df : DataFrame) : DataFrame :=
  mkDataFrame (nrows df) (dict_set name c (columns df)).

(** The strings [pd.to_datetime] reads as a missing value: the empty
    string and the spellings of [NaT] and [NaN] in [nat_strings]. *)
Definition nat_strings : list string := ["NaT"; "nat"; "NAT"; "nan"; "NaN"; "NAN"].

Definition is_nat_string (s : string) : bool :=
  bool_decide (s = "" ∨ s ∈ nat_strings).

(** [pd.to_datetime(series)], default [errors='raise']: a missing value
    and a string read as missing become [NaT], any other string is parsed,
    and one that does not parse raises. pandas settles on one format for a
    column; [strptime] is the parse of one string in the format of the
    columns at hand, which for an export is the format it writes. The
    program only passes object columns; a typed column is returned as it
    is. *)
Definition datetime_of (v : option string) : result (option Timestamp) :=
  match v with
  | None => Ok None
  | Some s =>
      if is_nat_string s then Ok None
      else match strptime s with
           | Some t => Ok (Some t)
           | None => Raise (ValueError s)
           end
  end.

Definition to_datetime (c : Column) : result Column :=
  match c with
  | ColObject raw => ts ←! mapM datetime_of raw; Ok (ColDatetime ts)
  | _ => Ok c
  end.

(** [pd.to_numeric(series)], default [errors='raise']: a missing value
    becomes [NaN], a string that does not parse raises. *)
Definition numeric_of (v : option string) : result (option Num) :=
  match v with
  | None => Ok None
  | Some s =>
      match strtod s with
      | Some x => Ok (Some x)
      | None => Raise (ValueError s)
      end
  end.

Definition to_numeric (c : Column) : result Column :=
  match c with
  | ColObject raw => vs ←! mapM numeric_of raw; Ok (ColNumeric vs)
  | _ => Ok c
  end.

(** [pd.to_numeric(series, errors='coerce')]: a string that does not
    parse becomes [NaN]. *)
Definition to_numeric_coerce (c : Column) : Column :=
  match c with
  | ColObject raw => ColNumeric ((λ v, v ≫= strtod) <$> raw)
  | _ => c
  end.

(** ** [HealthDataProcessor] *)

Definition record_data (elem : Element) : list (string * option string) :=
  [ ("startDate", get elem "startDate");
    ("endDate", get elem "endDate");
    ("value", get elem "value");
    ("unit", get elem "unit");
    ("device", get elem "device");
    ("sourceName", get elem "sourceName") ].

Definition is_record_of (record_type : string) (elem : Element) : bool :=
  bool_decide (tag elem = "Record") && bool_decide (get elem "type" = Some record_type).

(** The loop of [parse_records_by_type] over the events, [records] being
    the list built so far. *)
Fixpoint collect_records (record_type : string) (context : Events)
    (records : list (list (string * option string)))
    : result (list (list (string * option string))) :=
  match context with
  | EOF => Ok records
  | Failure e => Raise e
  | Event elem rest =>
      collect_records record_type rest
        (if is_record_of record_type elem then records ++ [record_data elem] else records)
  end.

(** [for date_col in date_cols: if date_col in df.columns:
       df[date_col] = pd.to_datetime(df[date_col])]. *)
Fixpoint convert_dates (date_cols : list string) (df : DataFrame) : result DataFrame :=
  match date_cols with
  | [] => Ok df
  | date_col :: rest =>
      if has_column date_col df
      then c ←! getitem date_col df;
           c' ←! to_datetime c;
           convert_dates rest (setitem date_col c' df)
      else convert_dates rest df
  end.

(** [try: df['value'] = pd.to_numeric(df['value'])
    except Exception: warning]. *)
Definition convert_value (df : DataFrame) : DataFrame :=
  match (c ←! getitem "value" df; c' ←! to_numeric c; Ok (setitem "value" c' df)) with
  | Ok df' => df'
  | Raise _ => df
  end.

Definition parse_records_by_type (src : Source) (record_type : string) : result DataFrame :=
  context ←! iterparse src;
  try_except
    (records ←! collect_records record_type context [];
     df ←! convert_dates ["startDate"; "endDate"] (pd_DataFrame records);
     Ok (convert_value df))
    (λ e, Raise e).

(** The loop of [get_available_record_types]. *)
Fixpoint scan_record_types (context : Events) (record_types : gset string) : result (gset string) :=
  match context with
  | EOF => Ok record_types
  | Failure e => Raise e
  | Event elem rest =>
      scan_record_types rest
        (if bool_decide (tag elem = "Record")
         then match get elem "type" with
              | Some record_type =>
                  if bool_decide (record_type ≠ "") then {[record_type]} ∪ record_types else record_types
              | None => record_types
              end
         else record_types)
  end.

(** [sorted(list(s))] on strings: the order of [str] is lexicographic
    by code point, which on UTF-8 bytes is the order of [String.le]. *)
Definition sorted (l : list string) : list string := merge_sort String.le l.

Definition get_available_record_types (src : Source) : result (list string) :=
  context ←! iterparse src;
  try_except
    (record_types ←! scan_record_types context ∅;
     Ok (sorted (elements record_types)))
    (λ e, Raise e).

Definition workout_data (elem : Element) : list (string * option string) :=
  [ ("workoutActivityType", get elem "workoutActivityType");
    ("duration", get elem "duration");
    ("startDate", get elem "startDate");
    ("endDate", get elem "endDate");
    ("totalDistance", get elem "totalDistance");
    ("totalEnergyBurned", get elem "totalEnergyBurned");
    ("sourceName", get elem "sourceName") ].

Fixpoint collect_workouts (context : Events) (workouts : list (list (string * option string)))
    : result (list (list (string * option string))) :=
  match context with
  | EOF => Ok workouts
  | Failure e => Raise e
  | Event elem rest =>
      collect_workouts rest
        (if bool_decide (tag elem = "Workout") then workouts ++ [workout_data elem] else workouts)
  end.

(** [for col in numeric_cols: if col in df.columns:
       df[col] = pd.to_numeric(df[col], errors='coerce')]. *)
Fixpoint coerce_numeric (numeric_cols : list string) (df : DataFrame) : result DataFrame :=
  match numeric_cols with
  | [] => Ok df
  | col :: rest =>
      if has_column col df
      then c ←! getitem col df;
           coerce_numeric rest (setitem col (to_numeric_coerce c) df)
      else coerce_numeric rest df
  end.

Definition process_workouts (src : Source) : result DataFrame :=
  context ←! iterparse src;
  try_except
    (workouts ←! collect_workouts context [];
     df ←! convert_dates ["startDate"; "endDate"] (pd_DataFrame workouts);
     coerce_numeric ["duration"; "totalDistance"; "totalEnergyBurned"] df)
    (λ e, Raise e).

End Pandas.

Arguments Column : clear implicits.
Arguments DataFrame : clear implicits.

(** ** [HealthDataReport.clean_metric_name] *)

Definition type_indicators : list (string * string) :=
  [ ("HKQuantityTypeIdentifier", "(Quantity)");
    ("HKCategoryTypeIdentifier", "(Category)");
    ("HKDataTypeIdentifier", "(Data)") ].

(** The [for prefix, indicator in type_indicators.items()] loop with its
    [break]; the state is [(cleaned_name, type_indicator)]. *)
Fixpoint find_indicator (items : list (string * string)) (name : string)
    (st : string * string) : string * string :=
  match items with
  | [] => st
  | (prefix, indicator) :: rest =>
      if contains prefix name
      then (str_replace prefix "" st.1, " " +:+ indicator)
      else find_indicator rest name st
  end.

Definition clean_metric_name (name : string) : string :=
  let '(cleaned_name, type_indicator) := find_indicator type_indicators name (name, "") in
  cleaned_name +:+ type_indicator.

(** ** [DatasetSummary] and the consolidated report *)

Inductive Stat : Type := Mean | Median | Std | Min | Max.

Section Report.
Context {Timestamp Num : Type}.

Abbreviation Column := (Column Timestamp Num).
Abbreviation DataFrame := (DataFrame Timestamp Num).

(** The value of [series.mean()], [series.min()], ...: the reduction and
    the column it was taken of. Floating-point arithmetic is not
    interpreted. *)
Inductive Scalar : Type :=
| Reduced (s : Stat) (c : Column).

(** Whether the reduction returns. [mean], [median] and [std] of an
    object column that holds a string raise [TypeError] (pandas 2); every
    other reduction the program performs returns. *)
Definition series_reduce (s : Stat) (c : Column) : result Scalar :=
  match c, s with
  | ColObject raw, (Mean | Median | Std) =>
      if forallb (λ v, bool_decide (v = None)) raw then Ok (Reduced s c) else Raise TypeError
  | _, _ => Ok (Reduced s c)
  end.

(** The dataclass; [column_names] is its field [columns]. *)
Record DatasetSummary : Type := mkDatasetSummary {
  name : string;
  record_count : nat;
  date_range : option Scalar * option Scalar;
  file_path : string;
  column_names : list string;
  file_size : Z;
  data_types : list (string * Dtype);
  sample_stats : option (list (string * Scalar))
}.

(** [file_path.stat().st_size] in a file system given by the sizes of
    its files. *)
Definition st_size (files : gmap string Z) (file_path : string) : result Z :=
  match files !! file_path with
  | Some n => Ok n
  | None => Raise (FileNotFoundError file_path)
  end.

(** [df[col].<stat>()]. *)
Definition column_stat (col : string) (s : Stat) (df : DataFrame) : result Scalar :=
  c ←! getitem col df; series_reduce s c.

(** The [sample_stats] part of [add_dataset_summary]: the dictionary is
    built inside [try], an exception leaves [None]. *)
Definition compute_sample_stats (df : DataFrame) : option (list (string * Scalar)) :=
  if has_column "value" df
  then match (mean ←! column_stat "value" Mean df;
              median ←! column_stat "value" Median df;
              std ←! column_stat "value" Std df;
              min ←! column_stat "value" Min df;
              max ←! column_stat "value" Max df;
              Ok [ ("mean", mean); ("median", median); ("std", std);
                   ("min", min); ("max", max) ]) with
       | Ok stats => Some stats
       | Raise _ => None
       end
  else None.

Definition compute_date_range (df : DataFrame) : result (option Scalar * option Scalar) :=
  if has_column "startDate" df
  then lo ←! column_stat "startDate" Min df;
       hi ←! column_stat "startDate" Max df;
       Ok (Some lo, Some hi)
  else Ok (None, None).

(** [add_dataset_summary]; [datasets] is [self.datasets]. *)
Definition add_dataset_summary (files : gmap string Z) (raw_name : string) (df : DataFrame)
    (path : string) (datasets : list (string * DatasetSummary))
    : result (list (string * DatasetSummary)) :=
  let cleaned_name := clean_metric_name raw_name in
  range ←! compute_date_range df;
  let stats := compute_sample_stats df in
  size ←! st_size files path;
  let summary :=
    mkDatasetSummary cleaned_name (nrows df) range path (dict_keys (columns df)) size
      ((λ kc, (kc.1, dtype kc.2)) <$> columns df) stats in
  Ok (dict_set cleaned_name summary datasets).

(** Cells of the report table. *)
Inductive Cell : Type :=
| CellStr (s : string)
| CellInt (n : nat)
| CellFloat (q : Q)
| CellValue (v : option Scalar).

(** One iteration of the loop of [create_report]. *)
Definition report_row (key : string) (summary : DatasetSummary) : list (string * Cell) :=
  let row :=
    [ ("Dataset", CellStr key);
      ("Records", CellInt (record_count summary));
      ("Start Date", CellValue (date_range summary).1);
      ("End Date", CellValue (date_range summary).2);
      ("File", CellStr (file_path summary));
      ("Size (KB)", CellFloat (inject_Z (file_size summary) / 1024)%Q);
      ("Columns", CellStr (str_join "; " (column_names summary))) ] in
  match sample_stats summary with
  | Some ((_ :: _) as stats) =>
      foldl (λ row sv, dict_set ("Value " +:+ sv.1) (CellValue (Some sv.2)) row) row stats
  | _ => row
  end.

(** [create_report]: the rows handed to [pd.DataFrame], in order; no
    datasets give the empty frame, which has no rows either. *)
Definition create_report (datasets : list (string * DatasetSummary))
    : list (list (string * Cell)) :=
  match datasets with
  | [] => []
  | _ => (λ kv, report_row kv.1 kv.2) <$> datasets
  end.

(** ** One orchestrator step: [_save_metric_data] *)

Variable strptime : string → option Timestamp.
Variable strtod : string → option Num.
(** The number of bytes [df.to_csv] writes. *)
Variable csv_size : DataFrame → Z.
(** Whether a file can be created at a path. The file name of a metric
    comes from the metric: with a [/] in it the path points into a directory
    that may not exist, and a long name may exceed what the file system
    takes; [df.to_csv] then raises [OSError]. *)
Variable writable : string → bool.

Record Session : Type := mkSession {
  output_dir : string;
  files : gmap string Z;
  datasets : list (string * DatasetSummary)
}.

(** [dir / filename] on paths. *)
Definition path_join (dir filename : string) : string :=
  if String.prefix "/" filename then filename else dir +:+ "/" +:+ filename.

(** [df.to_csv(output_path, index=False)] on the files of the session. *)
Definition to_csv_file (df : DataFrame) (output_path : string) (files : gmap string Z)
    : result (gmap string Z) :=
  if writable output_path then Ok (<[output_path := csv_size df]> files)
  else Raise (OSError output_path).

(** [_save_metric_data]: the whole body is inside [try], and the handler
    only prints. An exception of the extraction or of the write leaves the
    session as it was; one of [add_dataset_summary] leaves the file
    written. *)
Definition save_metric_data (src : Source) (metric : string) (sess : Session) : Session :=
  match parse_records_by_type strptime strtod src metric with
  | Raise _ => sess
  | Ok df =>
      let clean_name := split_head " (" (clean_metric_name metric) in
      let output_path := path_join (output_dir sess) (clean_name +:+ ".csv") in
      match to_csv_file df output_path (files sess) with
      | Raise _ => sess
      | Ok written =>
          match add_dataset_summary written metric df output_path (datasets sess) with
          | Raise _ => mkSession (output_dir sess) written (datasets sess)
          | Ok datasets' => mkSession (output_dir sess) written datasets'
          end
      end
  end.

End Report.

Arguments Scalar : clear implicits.
Arguments DatasetSummary : clear implicits.
Arguments Cell : clear implicits.
Arguments Session : clear implicits.

(** ** Parsers for the export's own formats

    Instances of the two text parsers, for the plain decimal literals and
    the [YYYY-MM-DD HH:MM:SS +ZZZZ] timestamps the export writes: the format
    pandas settles on for a column of such dates. They are used to run the
    model on concrete documents, whose dates are in this format, read as
    missing, or no dates in any format. *)

Definition digit_of (c : Ascii.ascii) : option Z :=
  let n := Z.of_N (Ascii.N_of_ascii c) in
  if bool_decide (48 ≤ n ≤ 57)%Z then Some (n - 48)%Z else None.

(** Reads the digits at the head of [s]: their value after [acc], how many
    there were, and the rest of [s]. *)
Fixpoint read_digits (s : string) (acc : Z) (count : nat) : Z * nat * string :=
  match s with
  | EmptyString => (acc, count, EmptyString)
  | String c s' =>
      match digit_of c with
      | Some d => read_digits s' (10 * acc + d)%Z (S count)
      | None => (acc, count, s)
      end
  end.

Definition strip_sign (s : string) : bool * string :=
  match s with
  | String "-"%char s' => (true, s')
  | String "+"%char s' => (false, s')
  | _ => (false, s)
  end.

Definition signed (negative : bool) (q : Q) : Q := if negative then (- q)%Q else q.

(** [[+-]digits[.digits]], at least one digit. *)
Definition decimal_literal (s : string) : option Q :=
  let '(negative, s1) := strip_sign s in
  let '(int_part, n_int, s2) := read_digits s1 0 0 in
  match s2 with
  | EmptyString =>
      if decide (n_int = 0) then None else Some (signed negative (inject_Z int_part))
  | String "."%char s3 =>
      let '(digits, n_frac, s4) := read_digits s3 int_part 0 in
      match s4 with
      | EmptyString =>
          if decide (n_int + n_frac = 0) then None
          else Some (signed negative (Qred (inject_Z digits / inject_Z (10 ^ Z.of_nat n_frac))))
      | _ => None
      end
  | _ => None
  end.

(** Exactly [n] digits at the head of [s]. *)
Definition fixed_digits (n : nat) (s : string) : option (Z * string) :=
  let '(v, count, rest) := read_digits (String.substring 0 n s) 0 0 in
  if decide (count = n ∧ rest = EmptyString)
  then Some (v, String.substring n (String.length s - n) s)
  else None.

Definition expect (c : Ascii.ascii) (s : string) : option string :=
  match s with
  | String c' s' => if decide (c' = c) then Some s' else None
  | EmptyString => None
  end.

Definition is_leap (y : Z) : bool :=
  bool_decide (y mod 4 = 0 ∧ (y mod 100 ≠ 0 ∨ y mod 400 = 0))%Z.

Definition days_in_month (y m : Z) : Z :=
  if bool_decide (m = 2)%Z then (if is_leap y then 29 else 28)%Z
  else if bool_decide (m = 4 ∨ m = 6 ∨ m = 9 ∨ m = 11)%Z then 30%Z
  else 31%Z.

(** Days from 1970-01-01 to the given civil date. *)
Definition days_from_civil (y m d : Z) : Z :=
  let y' := (if bool_decide (m ≤ 2)%Z then y - 1 else y)%Z in
  let era := (y' `div` 400)%Z in
  let yoe := (y' - era * 400)%Z in
  let mp := (if bool_decide (m ≤ 2)%Z then m + 9 else m - 3)%Z in
  let doy := ((153 * mp + 2) `div` 5 + d - 1)%Z in
  let doe := (yoe * 365 + yoe `div` 4 - yoe `div` 100 + doy)%Z in
  (era * 146097 + doe - 719468)%Z.

(** Seconds since the epoch of a timestamp in the export's format. *)
Definition export_timestamp (s : string) : option Z :=
  '(y, s) ← fixed_digits 4 s; s ← expect "-"%char s;
  '(m, s) ← fixed_digits 2 s; s ← expect "-"%char s;
  '(d, s) ← fixed_digits 2 s; s ← expect " "%char s;
  '(hh, s) ← fixed_digits 2 s; s ← expect ":"%char s;
  '(mm, s) ← fixed_digits 2 s; s ← expect ":"%char s;
  '(ss, s) ← fixed_digits 2 s; s ← expect " "%char s;
  let '(west, s) := strip_sign s in
  '(oh, s) ← fixed_digits 2 s;
  '(om, s) ← fixed_digits 2 s;
  if bool_decide (s = EmptyString ∧ 1 ≤ m ≤ 12 ∧ 1 ≤ d ≤ days_in_month y m ∧
                  hh < 24 ∧ mm < 60 ∧ ss < 60 ∧ oh < 24 ∧ om < 60)%Z
  then
    let local := (days_from_civil y m d * 86400 + hh * 3600 + mm * 60 + ss)%Z in
    let offset := (oh * 3600 + om * 60)%Z in
    Some (if west then local + offset else local - offset)%Z
  else None.

Definition Record_ (attrs : list (string * string)) : Element :=
  mkElement "Record" (list_to_map attrs).

(** ** Notions used to state the properties *)

(** The [Record] elements of a document with the requested type, in the
    order of the document, and the raw values of one attribute over a list
    of elements. *)
Definition matching_records (record_type : string) (D : list Element) : list Element :=
  filter (λ elem, is_record_of record_type elem) D.

Definition workouts_of (D : list Element) : list Element :=
  filter (λ elem, tag elem = "Workout") D.

Definition attr_column (key : string) (M : list Element) : list (option string) :=
  (λ elem, get elem key) <$> M.

(** Whether a character occurs in a string. *)
Fixpoint char_in (c : ascii) (s : string) : bool :=
  match s with
  | EmptyString => false
  | String a s' => bool_decide (a = c) || char_in c s'
  end.

(** The type identifier a [Record] element contributes to the catalogue. *)
Definition listed_type (elem : Element) : option string :=
  if bool_decide (tag elem = "Record")
  then match get elem "type" with
       | Some record_type => if bool_decide (record_type ≠ "") then Some record_type else None
       | None => None
       end
  else None.

(** A raw value is accepted by a parser when it is missing or parses. *)
Definition parses_with {A : Type} (p : string → option A) (v : option string) : bool :=
  match v with
  | None => true
  | Some s => bool_decide (is_Some (p s))
  end.

(** The timestamp of a string that is there: [NaT] when it is read as
    missing, its parse otherwise. A raw date is accepted when it is missing,
    read as missing, or parses. *)
Definition timestamp_of {Timestamp : Type} (strptime : string → option Timestamp)
    (s : string) : option Timestamp :=
  if is_nat_string s then None else strptime s.

Definition dated_with {Timestamp : Type} (strptime : string → option Timestamp)
    (v : option string) : bool :=
  match v with
  | None => true
  | Some s => is_nat_string s || bool_decide (is_Some (strptime s))
  end.

Section Frames.
Context {Timestamp Num : Type}.
Variable strptime : string → option Timestamp.
Variable strtod : string → option Num.

(** The all-or-nothing typing of a raw value column. *)
Definition coerced_value (raw : list (option string)) : Column Timestamp Num :=
  if forallb (parses_with strtod) raw
  then ColNumeric ((λ v, v ≫= strtod) <$> raw)
  else ColObject raw.

(** The frame with one row per element of [M]. *)
Definition records_frame (M : list Element) : DataFrame Timestamp Num :=
  match M with
  | [] => empty_frame
  | _ =>
    mkDataFrame (length M)
      [ ("startDate", ColDatetime ((λ v, v ≫= timestamp_of strptime) <$> attr_column "startDate" M));
        ("endDate", ColDatetime ((λ v, v ≫= timestamp_of strptime) <$> attr_column "endDate" M));
        ("value", coerced_value (attr_column "value" M));
        ("unit", ColObject (attr_column "unit" M));
        ("device", ColObject (attr_column "device" M));
        ("sourceName", ColObject (attr_column "sourceName" M)) ]
  end.

(** The frame with one row per workout of [W], every numeric field
    parsed on its own. *)
Definition workouts_frame (W : list Element) : DataFrame Timestamp Num :=
  match W with
  | [] => empty_frame
  | _ =>
    mkDataFrame (length W)
      [ ("workoutActivityType", ColObject (attr_column "workoutActivityType" W));
        ("duration", ColNumeric ((λ v, v ≫= strtod) <$> attr_column "duration" W));
        ("startDate", ColDatetime ((λ v, v ≫= timestamp_of strptime) <$> attr_column "startDate" W));
        ("endDate", ColDatetime ((λ v, v ≫= timestamp_of strptime) <$> attr_column "endDate" W));
        ("totalDistance", ColNumeric ((λ v, v ≫= strtod) <$> attr_column "totalDistance" W));
        ("totalEnergyBurned",
         ColNumeric ((λ v, v ≫= strtod) <$> attr_column "totalEnergyBurned" W));
        ("sourceName", ColObject (attr_column "sourceName" W)) ]
  end.

End Frames.

(** ** Successive calls on one report *)

Section Calls.
Context {Timestamp Num : Type}.

(** One call [report.add_dataset_summary(name, df, file_path)], with the
    file system it runs in. *)
Record Call : Type := mkCall {
  call_files : gmap string Z;
  call_name : string;
  call_frame : DataFrame Timestamp Num;
  call_path : string
}.

Definition record_call (c : Call) (datasets : list (string * DatasetSummary Timestamp Num))
    : result (list (string * DatasetSummary Timestamp Num)) :=
  add_dataset_summary (call_files c) (call_name c) (call_frame c) (call_path c) datasets.

(** Calls made one after the other on the same report. *)
Fixpoint record_all (calls : list Call) (datasets : list (string * DatasetSummary Timestamp Num))
    : result (list (string * DatasetSummary Timestamp Num)) :=
  match calls with
  | [] => Ok datasets
  | c :: rest => datasets' ←! record_call c datasets; record_all rest datasets'
  end.

(** The summary a call computes: what it stores in an empty report. *)
Definition recorded_summary (c : Call) : option (DatasetSummary Timestamp Num) :=
  match record_call c [] with
  | Ok [(_, summary)] => Some summary
  | _ => None
  end.

(** The [Dataset] column of the report table. *)
Definition dataset_column (rows : list (list (string * Cell Timestamp Num)))
    : list (option (Cell Timestamp Num)) :=
  dict_get "Dataset" <$> rows.
End Calls.
Arguments Call : clear implicits.

(** The names in the order each was first seen. *)
Definition first_seen (names : list string) : list string :=
  foldl (λ seen k, if decide (k ∈ seen) then seen else seen ++ [k]) [] names.

(** ** Sample documents and reports *)

Definition Workout_ (attrs : list (string * string)) : Element :=
  mkElement "Workout" (list_to_map attrs).

Definition step_count : string := "HKQuantityTypeIdentifierStepCount".

(** Three step counts with the values "100", "200" and "abc", among other
    elements. *)
Definition three_records : list Element :=
  [ Record_ [("type", step_count); ("startDate", "2024-01-15 08:30:00 -0700"); ("value", "100")];
    Workout_ [("workoutActivityType", "HKWorkoutActivityTypeRunning"); ("duration", "30")];
    Record_ [("type", "HKQuantityTypeIdentifierHeartRate"); ("value", "61")];
    Record_ [("type", step_count); ("startDate", "2024-01-15 09:30:00 -0700"); ("value", "200")];
    Record_ [("type", step_count); ("value", "abc")] ].

(** A step count whose start date is not a timestamp. *)
Definition bad_start_document : list Element :=
  [ Record_ [("type", step_count); ("startDate", "yesterday"); ("value", "100")] ].

(** A step count whose end date is no date, and a workout whose start
    date is none either. *)
Definition bad_end_document : list Element :=
  [ Record_ [("type", step_count); ("startDate", "2024-01-15 08:30:00 -0700");
             ("endDate", "yesterday"); ("value", "100")];
    Workout_ [("workoutActivityType", "HKWorkoutActivityTypeRunning");
              ("startDate", "yesterday"); ("duration", "30")] ].

(** A step count with an empty start date and an end date spelled [NaT]. *)
Definition null_dates_document : list Element :=
  [ Record_ [("type", step_count); ("startDate", ""); ("endDate", "NaT"); ("value", "100")] ].

(** Two workouts; the second has a duration that is not a number, the
    first an energy that is not one. *)
Definition two_workouts : list Element :=
  [ Workout_ [("workoutActivityType", "HKWorkoutActivityTypeRunning"); ("duration", "30.5");
              ("totalDistance", "5.2"); ("totalEnergyBurned", "n/a")];
    Record_ [("type", step_count); ("value", "100")];
    Workout_ [("workoutActivityType", "HKWorkoutActivityTypeWalking"); ("duration", "abc");
              ("totalDistance", "1.0")] ].

(** Records without a type and with an empty one, around a step count. *)
Definition untyped_document : list Element :=
  [ Record_ [("value", "1")];
    Record_ [("type", step_count); ("value", "100")];
    Record_ [("type", ""); ("value", "2")] ].

(** A [Record] element whose type is absent or empty. *)
Definition lacks_type (elem : Element) : bool :=
  bool_decide (tag elem = "Record") &&
  bool_decide (get elem "type" = None ∨ get elem "type" = Some "").

(** The keys of [sample_stats]. *)
Definition stat_keys : list string := ["mean"; "median"; "std"; "min"; "max"].

(** The frames extracted from the sample documents. *)
Definition step_count_frame : DataFrame Z Q :=
  Eval vm_compute in
    records_frame export_timestamp decimal_literal (matching_records step_count three_records).

Definition two_workouts_frame : DataFrame Z Q :=
  Eval vm_compute in workouts_frame export_timestamp decimal_literal (workouts_of two_workouts).

(** The report after recording the step counts. *)
Definition step_count_path : string := "out/StepCount.csv".

Definition step_count_report : list (string * DatasetSummary Z Q) :=
  Eval vm_compute in
    match add_dataset_summary {[ step_count_path := 58%Z ]} step_count step_count_frame
            step_count_path [] with
    | Ok datasets => datasets
    | Raise _ => []
    end.

(** Three calls, the third with the name of the first. *)
Definition sample_calls : list (Call Z Q) :=
  [ mkCall {[ "out/StepCount.csv" := 58%Z ]} step_count step_count_frame "out/StepCount.csv";
    mkCall {[ "out/workouts.csv" := 120%Z ]} "Workouts" two_workouts_frame "out/workouts.csv";
    mkCall {[ "out/StepCount.csv" := 1%Z ]} step_count empty_frame "out/StepCount.csv" ].

Definition sample_report : list (string * DatasetSummary Z Q) :=
  Eval vm_compute in
    match record_all sample_calls [] with
    | Ok datasets => datasets
    | Raise _ => []
    end.

(** ** The remaining orchestrator steps *)

Section Orchestrator.
Context {Timestamp Num : Type}.
Variable strptime : string → option Timestamp.
Variable strtod : string → option Num.
Variable csv_size : DataFrame Timestamp Num → Z.
Variable writable : string → bool.


(** [_process_all_metrics]: [for metric in record_types:
    self._save_metric_data(metric)]. *)
Definition _process_all_metrics (src : Source) (record_types : list string)
    (sess : Session Timestamp Num) : Session Timestamp Num :=
  foldl (λ sess metric, save_metric_data strptime strtod csv_size writable src metric sess)
    sess record_types.

(** [enumerate(l, start)]. *)
Fixpoint enumerate (start : Z) (l : list string) : list (Z * string) :=
  match l with
  | [] => []
  | x :: l' => (start, x) :: enumerate (start + 1) l'
  end.

(** [{i: metric for i, metric in enumerate(record_types, 1)}]. *)
Definition metric_mapping (record_types : list string) : gmap Z string :=
  list_to_map (enumerate 1 record_types).

(** [_process_specific_metric]. The console is given by what
    [int(input(...))] yields at each prompt: a number, or [None] when it
    raises [ValueError]. The result is [None] when the inputs run out while
    the loop is still asking; otherwise the session and the inputs left. *)
Fixpoint _process_specific_metric (src : Source) (record_types : list string)
    (inputs : list (option Z)) (sess : Session Timestamp Num)
    : option (result (Session Timestamp Num * list (option Z))) :=
  match inputs with
  | [] => None
  | None :: rest => _process_specific_metric src record_types rest sess
  | Some choice :: rest =>
      if bool_decide (choice = 0)%Z then Some (Ok (sess, rest))
      else if bool_decide (1 ≤ choice ≤ Z.of_nat (length record_types))%Z
      then match metric_mapping record_types !! choice with
           | Some metric =>
               Some (Ok (save_metric_data strptime strtod csv_size writable src metric sess,
                         rest))
           | None => Some (Raise (KeyError (pretty choice)))
           end
      else _process_specific_metric src record_types rest sess
  end.

End Orchestrator.

(** ** The batch step of the Streamlit front end *)

Section Streamlit.
Context {Timestamp Num : Type}.
Variable strptime : string → option Timestamp.
Variable strtod : string → option Num.
(** The text [df.to_csv(index=False)] produces, for a dataset and for the
    report table. *)
Variable to_csv : DataFrame Timestamp Num → string.
Variable report_to_csv : list (list (string * Cell Timestamp Num)) → string.

(** The first loop of [process_all_metrics], [all_dfs] being the
    dictionary built so far. *)
Fixpoint collect_frames (src : Source) (available_metrics : list string)
    (all_dfs : list (string * DataFrame Timestamp Num))
    : result (list (string * DataFrame Timestamp Num)) :=
  match available_metrics with
  | [] => Ok all_dfs
  | metric :: rest =>
      df ←! parse_records_by_type strptime strtod src metric;
      collect_frames src rest (dict_set (clean_metric_name metric) df all_dfs)
  end.

(** [StreamlitHealthApp.process_all_metrics]: the entries written to the
    archive, name and text, in the order they are written; an exception is
    caught and shown, and nothing is offered for download. [datasets] is the
    report of the session. *)
Definition process_all_metrics (src : Source) (available_metrics : list string)
    (datasets : list (string * DatasetSummary Timestamp Num))
    : result (list (string * string)) :=
  all_dfs ←! collect_frames src available_metrics [];
  let report_df := create_report datasets in
  Ok (((λ kv, (split_head " (" kv.1 +:+ ".csv", to_csv kv.2)) <$> all_dfs) ++
      [("_APPLE_HEALTH_SCHEDULE.csv", report_to_csv report_df)]).

End Streamlit.

(** ** Further notions used to state the properties *)

Section Shapes.
Context {Timestamp Num : Type}.

Definition column_length (c : Column Timestamp Num) : nat :=
  match c with
  | ColObject raw => length raw
  | ColDatetime ts => length ts
  | ColNumeric vs => length vs
  end.

End Shapes.

(** The columns of the two kinds of frame and the fixed columns of a report
    row. *)
Definition record_columns : list string :=
  ["startDate"; "endDate"; "value"; "unit"; "device"; "sourceName"].

Definition workout_columns : list string :=
  ["workoutActivityType"; "duration"; "startDate"; "endDate"; "totalDistance";
   "totalEnergyBurned"; "sourceName"].

Definition summary_columns : list string :=
  ["Dataset"; "Records"; "Start Date"; "End Date"; "File"; "Size (KB)"; "Columns"].

(** No known prefix occurs in a name. *)
Definition prefix_free (name : string) : bool :=
  forallb (λ q, negb (contains q name)) (dict_keys type_indicators).

(** The variable [cleaned_name] of [clean_metric_name] after the loop: the
    name, without the occurrences of the first known prefix found in it. *)
Definition cleaned_name (name : string) : string :=
  (find_indicator type_indicators name (name, "")).1.

(** The order in which names are first seen, after those already seen. *)
Definition seen_after (seen names : list string) : list string :=
  foldl (λ seen k, if decide (k ∈ seen) then seen else seen ++ [k]) seen names.

(** ** Notions and samples for the orchestrator steps *)

Section Paths.
Context {Timestamp Num : Type}.

(** The path [_save_metric_data] writes the CSV of a metric to. *)
Definition metric_path (sess : Session Timestamp Num) (metric : string) : string :=
  path_join (output_dir sess) (split_head " (" (clean_metric_name metric) +:+ ".csv").

(** A frame without rows and columns, or with at least one row, the given
    column names in order, and as many entries in every column as rows. *)
Definition rectangular (names : list string) (df : DataFrame Timestamp Num) : Prop :=
  (nrows df = 0 ∧ columns df = []) ∨
  (1 ≤ nrows df ∧ dict_keys (columns df) = names ∧
   Forall (λ kc, column_length kc.2 = nrows df) (columns df)).

End Paths.

(** An input at the prompt of [_process_specific_metric] that ends the
    loop: a number from 0 to the number of metrics. *)
Definition in_menu (n : nat) (input : option Z) : bool :=
  match input with
  | Some choice => bool_decide (0 ≤ choice ≤ Z.of_nat n)%Z
  | None => false
  end.

(** Stand-ins for the serialisation to CSV, to run the steps on the
    samples. *)
Definition sample_csv_size (df : DataFrame Z Q) : Z := 64 * Z.of_nat (nrows df).

(** An output directory [out] without subdirectories: a file can be
    created directly in it, and nowhere else. *)
Definition flat_out (path : string) : bool :=
  String.prefix "out/" path &&
  negb (contains "/" (String.substring 4 (String.length path - 4) path)).

(** A type with a [/] in its name, and a document with one record of
    it. *)
Definition slash_type : string := "HKQuantityTypeIdentifierDistance/Walking".

Definition slash_document : list Element :=
  [ Record_ [("type", slash_type); ("value", "1.5")] ].

(** A frame with a numeric [value] column and no rows. *)
Definition empty_numeric_frame : DataFrame Z Q := mkDataFrame 0 [("value", ColNumeric [])].

Definition sample_to_csv (df : DataFrame Z Q) : string := pretty (nrows df) +:+ " rows".

Definition sample_report_to_csv (rows : list (list (string * Cell Z Q))) : string :=
  pretty (length rows) +:+ " datasets".

Definition empty_session : Session Z Q := mkSession "out" ∅ [].

Definition heart_rate : string := "HKQuantityTypeIdentifierHeartRate".

(** The catalogue of [three_records]. *)
Definition sample_catalogue : list string := [heart_rate; step_count].

Definition heart_rate_frame : DataFrame Z Q :=
  Eval vm_compute in
    records_frame export_timestamp decimal_literal (matching_records heart_rate three_records).

(** The summary of the heart rates, which are numbers. *)
Definition heart_rate_summary : DatasetSummary Z Q :=
  Eval vm_compute in
    from_option id (mkDatasetSummary "" 0 (None, None) "" [] 0 [] None)
      (recorded_summary
         (mkCall {[ "out/HeartRate.csv" := 64%Z ]} heart_rate heart_rate_frame
            "out/HeartRate.csv")).

(** The archive of the Streamlit batch over the catalogue. *)
Definition sample_archive : list (string * string) :=
  Eval vm_compute in
    match process_all_metrics export_timestamp decimal_literal sample_to_csv
            sample_report_to_csv (document three_records) sample_catalogue [] with
    | Ok entries => entries
    | Raise _ => []
    end.

(** What the console yields at the prompts: not a number, two numbers off
    the menu, then the second metric. *)
Definition sample_inputs : list (option Z) := [None; Some 5%Z; Some (-1)%Z].

(** * Properties *)

(** ** Dictionaries *)

Section Dict.
Context {V : Type}.
Implicit Types (d : list (string * V)) (k : string) (v : V).

Lemma dict_get_set k k' v d :
  dict_get k (dict_set k' v d) = if decide (k' = k) then Some v else dict_get k d.
Proof.
  induction d as [|[k0 v0] d IH]; simpl.
  - done.
  - destruct (decide (k0 = k')) as [->|Hne]; simpl.
    + destruct (decide (k' = k)); done.
    + rewrite IH. destruct (decide (k0 = k)) as [->|]; [|done].
      by rewrite decide_False by congruence.
Qed.

Lemma dict_set_set k v v' d : dict_set k v' (dict_set k v d) = dict_set k v' d.
Proof.
  induction d as [|[k0 v0] d IH]; simpl.
  - by rewrite decide_True.
  - destruct (decide (k0 = k)) as [->|Hne]; simpl.
    + by rewrite decide_True.
    + by rewrite decide_False, IH.
Qed.

Lemma dict_keys_set k v d :
  dict_keys (dict_set k v d) = if decide (k ∈ dict_keys d) then dict_keys d else dict_keys d ++ [k].
Proof.
  unfold dict_keys. induction d as [|[k0 v0] d IH]; [done|].
  cbn [dict_set fmap list_fmap fst]. destruct (decide (k0 = k)) as [->|Hne].
  - rewrite decide_True by left. done.
  - cbn [fmap list_fmap fst]. rewrite IH.
    destruct (decide (k ∈ d.*1)) as [Hin|Hnin].
    + rewrite decide_True by (by right). done.
    + rewrite decide_False; [done|]. intros [->|?]%elem_of_cons; done.
Qed.

Lemma dict_keys_set_NoDup k v d : NoDup (dict_keys d) → NoDup (dict_keys (dict_set k v d)).
Proof.
  intros Hd. rewrite dict_keys_set. case_decide; [done|].
  apply NoDup_app. split_and!; [done| |apply NoDup_singleton].
  intros x Hx ->%list_elem_of_singleton. done.
Qed.

End Dict.

(** ** Results *)

Lemma mapM_Ok {A B : Type} (f : A → result B) (g : A → B) (l : list A) :
  (∀ x, x ∈ l → f x = Ok (g x)) → mapM f l = Ok (g <$> l).
Proof.
  induction l as [|a l IH]; intros Hf; simpl; [done|].
  rewrite (Hf a) by left. simpl. rewrite IH; [done|].
  intros x Hx. apply Hf. by right.
Qed.

(** ** The extraction loops *)

Section Processor_facts.
Context {Timestamp Num : Type}.
Variable strptime : string → option Timestamp.
Variable strtod : string → option Num.

Lemma collect_records_stream T D acc :
  collect_records T (stream D) acc = Ok (acc ++ (record_data <$> matching_records T D)).
Proof.
  revert acc. induction D as [|elem D IH]; intros acc; simpl.
  - by rewrite app_nil_r.
  - rewrite IH. unfold matching_records. rewrite filter_cons.
    destruct (is_record_of T elem); simpl; [|done].
    by rewrite <- app_assoc.
Qed.

Lemma pd_DataFrame_records (e0 : Element) M :
  @pd_DataFrame Timestamp Num (record_data <$> (e0 :: M)) =
  mkDataFrame (S (length M))
    [ ("startDate", ColObject (attr_column "startDate" (e0 :: M)));
      ("endDate", ColObject (attr_column "endDate" (e0 :: M)));
      ("value", ColObject (attr_column "value" (e0 :: M)));
      ("unit", ColObject (attr_column "unit" (e0 :: M)));
      ("device", ColObject (attr_column "device" (e0 :: M)));
      ("sourceName", ColObject (attr_column "sourceName" (e0 :: M))) ].
Proof.
  unfold pd_DataFrame, attr_column. rewrite length_fmap. simpl length.
  f_equal. simpl.
  repeat f_equal; rewrite <- list_fmap_compose; reflexivity.
Qed.

Lemma parses_dated raw :
  forallb (parses_with strptime) raw = true → forallb (dated_with strptime) raw = true.
Proof.
  rewrite !forallb_forall. intros H v Hv. specialize (H v Hv).
  destruct v as [s|]; [|done]. simpl in *. rewrite H. apply orb_true_r.
Qed.

Lemma mapM_datetime_of raw :
  forallb (dated_with strptime) raw = true →
  mapM (datetime_of strptime) raw = Ok ((λ v, v ≫= timestamp_of strptime) <$> raw).
Proof.
  intros H. apply mapM_Ok. intros [s|] Hx; [|done].
  rewrite forallb_forall in H. apply list_elem_of_In, H in Hx.
  cbn [dated_with datetime_of mbind option_bind] in *. unfold timestamp_of.
  destruct (is_nat_string s); [done|]. cbn [orb] in Hx.
  apply bool_decide_eq_true in Hx as [t Ht]. by rewrite Ht.
Qed.

Lemma mapM_datetime_of_fail raw :
  forallb (dated_with strptime) raw = false →
  is_ok (mapM (datetime_of strptime) raw) = false.
Proof.
  intros H. induction raw as [|v raw IH]; [done|]. cbn [forallb mapM] in *.
  apply andb_false_iff in H as [H|H].
  - destruct v as [s|]; [|done]. cbn [dated_with datetime_of] in *.
    apply orb_false_iff in H as [-> H]. apply bool_decide_eq_false in H.
    destruct (strptime s); [|done]. exfalso. apply H. by eexists.
  - specialize (IH H). destruct (datetime_of strptime v); [|done]. cbn [rbind].
    destruct (mapM _ raw); done.
Qed.

Lemma mapM_numeric_of raw :
  forallb (parses_with strtod) raw = true →
  mapM (numeric_of strtod) raw = Ok ((λ v, v ≫= strtod) <$> raw).
Proof.
  intros H. apply mapM_Ok. intros [s|] Hx; [|done].
  rewrite forallb_forall in H. apply list_elem_of_In, H in Hx. simpl in Hx.
  apply bool_decide_eq_true in Hx as [t Ht]. simpl. by rewrite Ht.
Qed.

Lemma mapM_numeric_of_fail raw :
  forallb (parses_with strtod) raw = false →
  is_ok (mapM (numeric_of strtod) raw) = false.
Proof.
  intros H. induction raw as [|v raw IH]; [done|]. simpl in *.
  apply andb_false_iff in H as [H|H].
  - destruct v as [s|]; [|done]. simpl in *. apply bool_decide_eq_false in H.
    destruct (strtod s); [|done]. exfalso. apply H. by eexists.
  - specialize (IH H). destruct (numeric_of strtod v); [|done]. simpl.
    destruct (mapM _ raw); done.
Qed.

Lemma convert_value_setitem (df : DataFrame Timestamp Num) raw :
  convert_value strtod (setitem "value" (ColObject raw) df) =
  setitem "value" (coerced_value strtod raw) df.
Proof.
  unfold convert_value, getitem, setitem, coerced_value. simpl.
  rewrite dict_get_set, decide_True by done. simpl.
  destruct (forallb (parses_with strtod) raw) eqn:E.
  - rewrite mapM_numeric_of by done. simpl. by rewrite dict_set_set.
  - apply mapM_numeric_of_fail in E. destruct (mapM _ raw); done.
Qed.

Lemma convert_dates_records n s e (v u d sn : Column Timestamp Num) :
  convert_dates strptime ["startDate"; "endDate"]
    (mkDataFrame n
       [ ("startDate", ColObject s); ("endDate", ColObject e); ("value", v);
         ("unit", u); ("device", d); ("sourceName", sn) ]) =
  (ts ←! mapM (datetime_of strptime) s;
   te ←! mapM (datetime_of strptime) e;
   Ok (mkDataFrame n
         [ ("startDate", ColDatetime ts); ("endDate", ColDatetime te); ("value", v);
           ("unit", u); ("device", d); ("sourceName", sn) ])).
Proof.
  simpl. destruct (mapM (datetime_of strptime) s); simpl; [|done].
  destruct (mapM (datetime_of strptime) e); done.
Qed.

Lemma convert_value_records n (s e : Column Timestamp Num) v (u d sn : Column Timestamp Num) :
  convert_value strtod
    (mkDataFrame n
       [ ("startDate", s); ("endDate", e); ("value", ColObject v);
         ("unit", u); ("device", d); ("sourceName", sn) ]) =
  mkDataFrame n
    [ ("startDate", s); ("endDate", e); ("value", coerced_value strtod v);
      ("unit", u); ("device", d); ("sourceName", sn) ].
Proof.
  unfold convert_value, coerced_value. simpl.
  destruct (forallb (parses_with strtod) v) eqn:E.
  - by rewrite mapM_numeric_of.
  - apply mapM_numeric_of_fail in E. destruct (mapM _ v); done.
Qed.

Lemma parse_records_by_type_ok D T :
  let M := matching_records T D in
  forallb (dated_with strptime) (attr_column "startDate" M) = true →
  forallb (dated_with strptime) (attr_column "endDate" M) = true →
  parse_records_by_type strptime strtod (document D) T = Ok (records_frame strptime strtod M).
Proof.
  intros M Hs He. unfold parse_records_by_type, document.
  cbn [iterparse rbind]. rewrite collect_records_stream. cbn [rbind app]. fold M.
  destruct M as [|e0 M']; [done|].
  rewrite pd_DataFrame_records, convert_dates_records.
  rewrite !mapM_datetime_of by done. cbn [rbind try_except].
  by rewrite convert_value_records.
Qed.

Lemma parse_records_by_type_raise D T :
  let M := matching_records T D in
  forallb (dated_with strptime) (attr_column "startDate" M) &&
  forallb (dated_with strptime) (attr_column "endDate" M) = false →
  is_ok (parse_records_by_type strptime strtod (document D) T) = false.
Proof.
  intros M H. unfold parse_records_by_type, document.
  cbn [iterparse rbind]. rewrite collect_records_stream. cbn [rbind app]. fold M.
  destruct M as [|e0 M']; [done|].
  rewrite pd_DataFrame_records, convert_dates_records.
  apply andb_false_iff in H.
  destruct (forallb (dated_with strptime) (attr_column "startDate" (e0 :: M'))) eqn:Es.
  - destruct H as [H|H]; [done|]. rewrite mapM_datetime_of by done. cbn [rbind].
    apply mapM_datetime_of_fail in H. destruct (mapM _ (attr_column "endDate" _)); done.
  - apply mapM_datetime_of_fail in Es. destruct (mapM _ (attr_column "startDate" _)); done.
Qed.

Lemma collect_workouts_stream D acc :
  collect_workouts (stream D) acc = Ok (acc ++ (workout_data <$> workouts_of D)).
Proof.
  revert acc. induction D as [|elem D IH]; intros acc; simpl.
  - by rewrite app_nil_r.
  - rewrite IH. unfold workouts_of. rewrite filter_cons.
    case_bool_decide; [rewrite decide_True by done|rewrite decide_False by done]; [|done].
    by rewrite <- app_assoc.
Qed.

Lemma pd_DataFrame_workouts (e0 : Element) W :
  @pd_DataFrame Timestamp Num (workout_data <$> (e0 :: W)) =
  mkDataFrame (S (length W))
    [ ("workoutActivityType", ColObject (attr_column "workoutActivityType" (e0 :: W)));
      ("duration", ColObject (attr_column "duration" (e0 :: W)));
      ("startDate", ColObject (attr_column "startDate" (e0 :: W)));
      ("endDate", ColObject (attr_column "endDate" (e0 :: W)));
      ("totalDistance", ColObject (attr_column "totalDistance" (e0 :: W)));
      ("totalEnergyBurned", ColObject (attr_column "totalEnergyBurned" (e0 :: W)));
      ("sourceName", ColObject (attr_column "sourceName" (e0 :: W))) ].
Proof.
  unfold pd_DataFrame, attr_column. rewrite length_fmap. simpl length.
  f_equal. simpl.
  repeat f_equal; rewrite <- list_fmap_compose; reflexivity.
Qed.

Lemma convert_workouts n (a : Column Timestamp Num) du s e di en (sn : Column Timestamp Num) :
  (df ←! convert_dates strptime ["startDate"; "endDate"]
     (mkDataFrame n
        [ ("workoutActivityType", a); ("duration", ColObject du);
          ("startDate", ColObject s); ("endDate", ColObject e);
          ("totalDistance", ColObject di); ("totalEnergyBurned", ColObject en);
          ("sourceName", sn) ]);
   coerce_numeric strtod ["duration"; "totalDistance"; "totalEnergyBurned"] df) =
  (ts ←! mapM (datetime_of strptime) s;
   te ←! mapM (datetime_of strptime) e;
   Ok (mkDataFrame n
         [ ("workoutActivityType", a);
           ("duration", ColNumeric ((λ v, v ≫= strtod) <$> du));
           ("startDate", ColDatetime ts); ("endDate", ColDatetime te);
           ("totalDistance", ColNumeric ((λ v, v ≫= strtod) <$> di));
           ("totalEnergyBurned", ColNumeric ((λ v, v ≫= strtod) <$> en));
           ("sourceName", sn) ])).
Proof.
  simpl. destruct (mapM (datetime_of strptime) s); simpl; [|done].
  destruct (mapM (datetime_of strptime) e); done.
Qed.

Lemma process_workouts_ok D :
  let W := workouts_of D in
  forallb (dated_with strptime) (attr_column "startDate" W) = true →
  forallb (dated_with strptime) (attr_column "endDate" W) = true →
  process_workouts strptime strtod (document D) = Ok (workouts_frame strptime strtod W).
Proof.
  intros W Hs He. unfold process_workouts, document.
  cbn [iterparse rbind]. rewrite collect_workouts_stream. cbn [rbind app]. fold W.
  destruct W as [|e0 W']; [done|].
  rewrite pd_DataFrame_workouts, convert_workouts.
  by rewrite !mapM_datetime_of by done.
Qed.

Lemma process_workouts_raise D :
  let W := workouts_of D in
  forallb (dated_with strptime) (attr_column "startDate" W) &&
  forallb (dated_with strptime) (attr_column "endDate" W) = false →
  is_ok (process_workouts strptime strtod (document D)) = false.
Proof.
  intros W H. unfold process_workouts, document.
  cbn [iterparse rbind]. rewrite collect_workouts_stream. cbn [rbind app]. fold W.
  destruct W as [|e0 W']; [done|].
  rewrite pd_DataFrame_workouts, convert_workouts.
  apply andb_false_iff in H.
  destruct (forallb (dated_with strptime) (attr_column "startDate" (e0 :: W'))) eqn:Es.
  - destruct H as [H|H]; [done|]. rewrite mapM_datetime_of by done. cbn [rbind].
    apply mapM_datetime_of_fail in H. destruct (mapM _ (attr_column "endDate" _)); done.
  - apply mapM_datetime_of_fail in Es. destruct (mapM _ (attr_column "startDate" _)); done.
Qed.

(** A stream that aborts makes every loop raise, whatever was gathered. *)
Lemma collect_records_broken T D e acc : collect_records T (broken_stream D e) acc = Raise e.
Proof. revert acc. induction D as [|elem D IH]; intros acc; simpl; [done|apply IH]. Qed.

Lemma collect_workouts_broken D e acc : collect_workouts (broken_stream D e) acc = Raise e.
Proof. revert acc. induction D as [|elem D IH]; intros acc; simpl; [done|apply IH]. Qed.

Lemma scan_record_types_broken D e acc : scan_record_types (broken_stream D e) acc = Raise e.
Proof. revert acc. induction D as [|elem D IH]; intros acc; simpl; [done|apply IH]. Qed.

End Processor_facts.

(** ** The catalogue of types *)

Lemma scan_record_types_stream D acc :
  scan_record_types (stream D) acc = Ok (list_to_set (omap listed_type D) ∪ acc).
Proof.
  revert acc. induction D as [|elem D IH]; intros acc; simpl.
  - f_equal. set_solver.
  - rewrite IH. f_equal. unfold listed_type.
    case_bool_decide; [|done].
    destruct (get elem "type") as [t|]; [|done].
    case_bool_decide; [|done]. simpl. set_solver.
Qed.

Lemma get_available_record_types_document D :
  get_available_record_types (document D) =
  Ok (sorted (elements (list_to_set (omap listed_type D) : gset string))).
Proof.
  unfold get_available_record_types, document. cbn [iterparse rbind].
  rewrite scan_record_types_stream. cbn [rbind try_except].
  by rewrite (right_id_L ∅ (∪)).
Qed.

Lemma elem_of_sorted x l : x ∈ sorted l ↔ x ∈ l.
Proof. unfold sorted. by rewrite merge_sort_Permutation. Qed.

(** ** Substrings and replacement *)

Lemma string_app_nil_r s : s +:+ "" = s.
Proof. induction s as [|a s IH]; [done|]. unfold String.app in *. simpl. by rewrite IH. Qed.

Lemma prefix_app_sep q u c w :
  char_in c q = false → String.prefix q (u +:+ String c w) = String.prefix q u.
Proof.
  revert u. induction q as [|a q IH]; intros u Hc.
  - by destruct u.
  - simpl in Hc. apply orb_false_iff in Hc as [Hac Hq].
    apply bool_decide_eq_false in Hac.
    destruct u as [|b u]; unfold String.app; simpl.
    + destruct (ascii_dec a c); [done|done].
    + destruct (ascii_dec a b); [|done]. by apply IH.
Qed.

Lemma contains_app_sep q u c w :
  char_in c q = false → q ≠ "" →
  contains q (u +:+ String c w) = contains q u || contains q (String c w).
Proof.
  intros Hc Hq. induction u as [|b u IH].
  - unfold String.app. simpl String.append.
    destruct q; [done|]. done.
  - change (String b u +:+ String c w) with (String b (u +:+ String c w)).
    cbn [contains]. rewrite IH.
    change (String b (u +:+ String c w)) with (String b u +:+ String c w).
    rewrite prefix_app_sep by done. by rewrite orb_assoc.
Qed.

Lemma replace_go_absent old new s :
  contains old s = false → replace_go old new 0 s = s.
Proof.
  induction s as [|c s IH]; [done|].
  cbn [contains replace_go]. intros [Hp Hs]%orb_false_iff.
  rewrite Hp. by rewrite IH.
Qed.

Lemma find_indicator_absent items name st :
  forallb (λ q, negb (contains q name)) (dict_keys items) = true →
  find_indicator items name st = st.
Proof.
  induction items as [|[p i] items IH]; [done|]. simpl.
  intros [Hp Hrest]%andb_true_iff. apply negb_true_iff in Hp. rewrite Hp. by apply IH.
Qed.

Lemma clean_metric_name_absent name :
  forallb (λ q, negb (contains q name)) (dict_keys type_indicators) = true →
  clean_metric_name name = name.
Proof.
  intros H. unfold clean_metric_name. rewrite find_indicator_absent by done.
  apply string_app_nil_r.
Qed.

Lemma prefix_app_self p r : String.prefix p (p +:+ r) = true.
Proof.
  induction p as [|a p IH]; [by destruct r|].
  unfold String.app in *. simpl. by destruct (ascii_dec a a).
Qed.

Lemma contains_app_self p r : contains p (p +:+ r) = true.
Proof.
  pose proof (prefix_app_self p r) as H. destruct (p +:+ r); cbn [contains]; by rewrite H.
Qed.

Lemma replace_go_skip old new u r :
  replace_go old new (String.length u) (u +:+ r) = replace_go old new 0 r.
Proof. induction u as [|a u IH]; [done|]. unfold String.app in *. simpl. apply IH. Qed.

Lemma str_replace_prefix_absent old r :
  old ≠ "" → contains old r = false → str_replace old "" (old +:+ r) = r.
Proof.
  intros Hne Hr. destruct old as [|a old]; [done|].
  unfold str_replace.
  change (String a old +:+ r) with (String a (old +:+ r)).
  cbn [replace_go].
  change (String a (old +:+ r)) with (String a old +:+ r).
  rewrite prefix_app_self.
  replace (String.length (String a old) - 1) with (String.length old) by (simpl; lia).
  rewrite replace_go_skip. by rewrite replace_go_absent.
Qed.

Lemma contains_app_tail c q p r :
  char_in c p = false → contains (String c q) (p +:+ r) = contains (String c q) r.
Proof.
  induction p as [|b p IH]; [done|]. intros Hc. simpl in Hc.
  apply orb_false_iff in Hc as [Hb Hp]. apply bool_decide_eq_false in Hb.
  change (String b p +:+ r) with (String b (p +:+ r)).
  cbn [contains String.prefix]. rewrite IH by done.
  destruct (ascii_dec c b); [by subst|done].
Qed.

Lemma contains_app_head c q a p r :
  char_in c p = false →
  contains (String c q) (String a p +:+ r) =
  String.prefix (String c q) (String a p +:+ r) || contains (String c q) r.
Proof.
  intros Hc. change (String a p +:+ r) with (String a (p +:+ r)).
  cbn [contains]. by rewrite contains_app_tail.
Qed.

Lemma string_length_app s1 s2 :
  String.length (s1 +:+ s2) = String.length s1 + String.length s2.
Proof. induction s1 as [|a s1 IH]; [done|]. unfold String.app in *. simpl. by rewrite IH. Qed.

Lemma prefix_length p s : String.prefix p s = true → String.length p ≤ String.length s.
Proof.
  revert s. induction p as [|a p IH]; intros s H; [simpl; lia|].
  destruct s as [|b s]; [done|]. simpl in *.
  destruct (ascii_dec a b); [|done]. apply IH in H. lia.
Qed.

Lemma replace_go_length old k s :
  k ≤ String.length s →
  String.length (replace_go old "" k s) + k ≤ String.length s.
Proof.
  revert k. induction s as [|c s IH]; intros k Hk; [simpl in *; lia|].
  destruct k as [|k].
  - cbn [replace_go]. destruct (String.prefix old (String c s)) eqn:E.
    + apply prefix_length in E. cbn [String.length] in *.
      change ("" +:+ ?x) with x.
      assert (String.length old - 1 ≤ String.length s) as H by lia.
      apply IH in H. lia.
    + cbn [String.length]. specialize (IH 0). lia.
  - cbn [replace_go String.length] in *. specialize (IH k). lia.
Qed.

Lemma replace_go_shrinks old s :
  old ≠ "" → contains old s = true →
  String.length (replace_go old "" 0 s) + String.length old ≤ String.length s.
Proof.
  intros Hne. induction s as [|c s IH]; intros H.
  - destruct old; done.
  - cbn [contains] in H. cbn [replace_go].
    destruct (String.prefix old (String c s)) eqn:E.
    + apply prefix_length in E. cbn [String.length] in *.
      change ("" +:+ ?x) with x.
      assert (String.length old - 1 ≤ String.length s) as Hk.
      { destruct old; [done|]. simpl in *. lia. }
      apply (replace_go_length old) in Hk.
      destruct old; [done|]. simpl in *. lia.
    + simpl in H. apply IH in H. cbn [String.length]. lia.
Qed.

Lemma clean_metric_name_shrinks name :
  prefix_free name = false →
  String.length (clean_metric_name name) < String.length name.
Proof.
  unfold prefix_free, clean_metric_name, type_indicators.
  cbn [dict_keys fmap list_fmap fst forallb find_indicator]. intros H.
  destruct (contains "HKQuantityTypeIdentifier" name) eqn:E1;
    [|destruct (contains "HKCategoryTypeIdentifier" name) eqn:E2;
      [|destruct (contains "HKDataTypeIdentifier" name) eqn:E3; [|done]]];
    cbn [fst]; rewrite string_length_app;
    match goal with
    | E : contains ?p name = true |- _ =>
        pose proof (replace_go_shrinks p name ltac:(done) E) as Hlen
    end;
    unfold str_replace; simpl in *; lia.
Qed.

Lemma clean_metric_name_known_prefix p ind r :
  dict_get p type_indicators = Some ind → prefix_free r = true →
  clean_metric_name (p +:+ r) = r +:+ " " +:+ ind.
Proof.
  intros Hp Hr.
  assert (∀ q, q ∈ dict_keys type_indicators → contains q r = false) as Hall.
  { intros q Hq. unfold prefix_free in Hr. rewrite forallb_forall in Hr.
    apply negb_true_iff, Hr, list_elem_of_In, Hq. }
  unfold type_indicators in Hp. simpl in Hp.
  repeat case_decide; simplify_eq; unfold clean_metric_name, type_indicators;
    cbn [find_indicator];
    rewrite ?contains_app_head by reflexivity;
    rewrite ?(Hall _) by (unfold type_indicators; set_solver);
    rewrite ?prefix_app_self;
    repeat match goal with
           | |- context [String.prefix ?q (?p +:+ r)] =>
               replace (String.prefix q (p +:+ r)) with false by reflexivity
           end;
    cbn [orb fst];
    (rewrite str_replace_prefix_absent;
     [done|done|apply Hall; unfold type_indicators; set_solver]).
Qed.

Lemma indicator_of_known_prefix p ind :
  dict_get p type_indicators = Some ind → ind ∈ type_indicators.*2.
Proof.
  unfold type_indicators. simpl. repeat case_decide; intros; simplify_eq; set_solver.
Qed.

Lemma contains_app_indicator q y ind :
  q ∈ dict_keys type_indicators → ind ∈ type_indicators.*2 →
  contains q (y +:+ " " +:+ ind) = contains q y.
Proof.
  intros Hq Hind. change (y +:+ " " +:+ ind) with (y +:+ String " " ind).
  unfold type_indicators in Hq, Hind. cbn [dict_keys fmap list_fmap fst snd] in Hq, Hind.
  rewrite !elem_of_cons, elem_of_nil in Hq, Hind.
  destruct Hq as [->|[->|[->|[]]]]; destruct Hind as [->|[->|[->|[]]]];
    rewrite contains_app_sep by done; apply orb_false_r.
Qed.

Lemma prefix_free_app_indicator y ind :
  ind ∈ type_indicators.*2 → prefix_free (y +:+ " " +:+ ind) = prefix_free y.
Proof.
  intros Hind. unfold prefix_free.
  induction (dict_keys type_indicators) as [|q l IH] eqn:E in Hind |- *; [done|].
  assert (∀ q', q' ∈ q :: l → contains q' (y +:+ " " +:+ ind) = contains q' y) as H.
  { intros q' Hq'. apply contains_app_indicator; [by rewrite E|done]. }
  clear E IH. induction (q :: l) as [|q' l' IH]; [done|]. cbn [forallb].
  rewrite H by left. rewrite IH; [done|]. intros q'' Hq''. apply H. by right.
Qed.

(** What the loop of [clean_metric_name] leaves: nothing to append when no
    known prefix occurs, a space and an indicator otherwise. *)
Lemma clean_metric_name_parts name :
  (prefix_free name = true ∧ cleaned_name name = name) ∨
  (∃ ind, ind ∈ type_indicators.*2 ∧
          clean_metric_name name = cleaned_name name +:+ " " +:+ ind).
Proof.
  unfold prefix_free, cleaned_name, clean_metric_name, type_indicators.
  cbn [dict_keys fmap list_fmap fst snd forallb find_indicator].
  destruct (contains "HKQuantityTypeIdentifier" name);
    [right; exists "(Quantity)"; split; [set_solver|done]|].
  destruct (contains "HKCategoryTypeIdentifier" name);
    [right; exists "(Category)"; split; [set_solver|done]|].
  destruct (contains "HKDataTypeIdentifier" name);
    [right; exists "(Data)"; split; [set_solver|done]|].
  by left.
Qed.

Lemma prefix_free_clean name :
  prefix_free (clean_metric_name name) = prefix_free (cleaned_name name).
Proof.
  destruct (clean_metric_name_parts name) as [[Hfree ->]|(ind & Hind & ->)].
  - by rewrite (clean_metric_name_absent name Hfree).
  - by apply prefix_free_app_indicator.
Qed.

Lemma clean_metric_name_fixed name : clean_metric_name name = name ↔ prefix_free name = true.
Proof.
  split; [|apply clean_metric_name_absent].
  intros H. destruct (prefix_free name) eqn:E; [done|].
  apply clean_metric_name_shrinks in E. rewrite H in E. lia.
Qed.

(** ** Summaries *)

Section Report_facts.
Context {Timestamp Num : Type}.
Implicit Types (df : DataFrame Timestamp Num) (ds : list (string * DatasetSummary Timestamp Num)).

Lemma add_dataset_summary_inv files raw_name df path ds ds' :
  add_dataset_summary files raw_name df path ds = Ok ds' →
  ∃ range size,
    compute_date_range df = Ok range ∧ st_size files path = Ok size ∧
    ds' = dict_set (clean_metric_name raw_name)
            (mkDatasetSummary (clean_metric_name raw_name) (nrows df) range path
               (dict_keys (columns df)) size ((λ kc, (kc.1, dtype kc.2)) <$> columns df)
               (compute_sample_stats df)) ds.
Proof.
  unfold add_dataset_summary.
  destruct (compute_date_range df) as [range|]; [|done]. cbn [rbind].
  destruct (st_size files path) as [size|]; [|done]. cbn [rbind].
  intros [= <-]. by exists range, size.
Qed.

Lemma compute_sample_stats_absent df :
  dict_get "value" (columns df) = None → compute_sample_stats df = None.
Proof.
  intros H. unfold compute_sample_stats, has_column. rewrite H.
  rewrite bool_decide_eq_false_2; [done|]. by intros [? ?].
Qed.

Lemma compute_sample_stats_numeric df vs :
  dict_get "value" (columns df) = Some (ColNumeric vs) →
  compute_sample_stats df =
  Some [ ("mean", Reduced Mean (ColNumeric vs)); ("median", Reduced Median (ColNumeric vs));
         ("std", Reduced Std (ColNumeric vs)); ("min", Reduced Min (ColNumeric vs));
         ("max", Reduced Max (ColNumeric vs)) ].
Proof.
  intros H. unfold compute_sample_stats, has_column, column_stat, getitem. rewrite H.
  rewrite bool_decide_eq_true_2 by (by eexists). done.
Qed.

Lemma compute_sample_stats_object df raw :
  dict_get "value" (columns df) = Some (ColObject raw) →
  forallb (λ v, bool_decide (v = None)) raw = false →
  compute_sample_stats df = None.
Proof.
  intros H Hraw. unfold compute_sample_stats, has_column, column_stat, getitem. rewrite H.
  rewrite bool_decide_eq_true_2 by (by eexists). cbn [rbind series_reduce].
  by rewrite Hraw.
Qed.

Lemma not_all_parse_not_all_null {A} (p : string → option A) raw :
  forallb (parses_with p) raw = false → forallb (λ v, bool_decide (v = None)) raw = false.
Proof.
  induction raw as [|v raw IH]; [done|]. simpl.
  intros [H|H]%andb_false_iff.
  - destruct v; [done|done].
  - rewrite IH by done. apply andb_false_r.
Qed.

Variable strptime : string → option Timestamp.
Variable strtod : string → option Num.

Lemma compute_sample_stats_records M :
  is_Some (compute_sample_stats (records_frame strptime strtod M)) ↔
  (∃ c, dict_get "value" (columns (records_frame strptime strtod M)) = Some c ∧ is_numeric c = true) ∧
  1 ≤ nrows (records_frame strptime strtod M).
Proof.
  destruct M as [|e0 M'].
  - simpl. split; [by intros [? ?]|]. intros [_ ?]. lia.
  - set (M := e0 :: M').
    assert (dict_get "value" (columns (records_frame strptime strtod M)) =
            Some (coerced_value strtod (attr_column "value" M))) as Hv by done.
    assert (nrows (records_frame strptime strtod M) = S (length M')) as -> by done.
    unfold coerced_value in Hv. rewrite Hv.
    destruct (forallb (parses_with strtod) (attr_column "value" M)) eqn:E.
    + rewrite (compute_sample_stats_numeric _ _ Hv). split; [|by eexists].
      intros _. split; [by eexists|lia].
    + rewrite (compute_sample_stats_object _ _ Hv) by (by eapply not_all_parse_not_all_null).
      split; [by intros [? ?]|]. intros [(c & Hc & Hn) _]. by simplify_eq.
Qed.

Lemma events_cases (context : Events) :
  (∃ D, context = stream D) ∨ (∃ D e, context = broken_stream D e).
Proof.
  induction context as [|elem rest [[D ->]|(D & e & ->)]|e].
  - left. by exists [].
  - left. by exists (elem :: D).
  - right. by exists (elem :: D), e.
  - right. by exists [], e.
Qed.

Lemma parse_records_by_type_broken D e T :
  parse_records_by_type strptime strtod (Readable (broken_stream D e)) T = Raise e.
Proof. unfold parse_records_by_type. simpl. by rewrite collect_records_broken. Qed.

Lemma process_workouts_broken D e :
  process_workouts strptime strtod (Readable (broken_stream D e)) = Raise e.
Proof. unfold process_workouts. simpl. by rewrite collect_workouts_broken. Qed.

Lemma get_available_record_types_broken D e :
  get_available_record_types (Readable (broken_stream D e)) = Raise e.
Proof. unfold get_available_record_types. simpl. by rewrite scan_record_types_broken. Qed.

Lemma parse_records_by_type_inv src T df :
  parse_records_by_type strptime strtod src T = Ok df →
  ∃ D, src = document D ∧ df = records_frame strptime strtod (matching_records T D).
Proof.
  destruct src as [e|context]; [done|].
  destruct (events_cases context) as [[D ->]|(D & e & ->)].
  - intros H. exists D. split; [done|].
    destruct (forallb (dated_with strptime) (attr_column "startDate" (matching_records T D)) &&
              forallb (dated_with strptime) (attr_column "endDate" (matching_records T D))) eqn:E.
    + apply andb_true_iff in E as [Es Ee].
      pose proof (parse_records_by_type_ok strptime strtod D T Es Ee) as Hok.
      unfold document in Hok. rewrite H in Hok. by simplify_eq.
    + pose proof (parse_records_by_type_raise strptime strtod D T E) as Hr.
      unfold document in Hr. by rewrite H in Hr.
  - by rewrite parse_records_by_type_broken.
Qed.

Lemma process_workouts_inv src df :
  process_workouts strptime strtod src = Ok df →
  ∃ D, src = document D ∧ df = workouts_frame strptime strtod (workouts_of D).
Proof.
  destruct src as [e|context]; [done|].
  destruct (events_cases context) as [[D ->]|(D & e & ->)].
  - intros H. exists D. split; [done|].
    destruct (forallb (dated_with strptime) (attr_column "startDate" (workouts_of D)) &&
              forallb (dated_with strptime) (attr_column "endDate" (workouts_of D))) eqn:E.
    + apply andb_true_iff in E as [Es Ee].
      pose proof (process_workouts_ok strptime strtod D Es Ee) as Hok.
      unfold document in Hok. rewrite H in Hok. by simplify_eq.
    + pose proof (process_workouts_raise strptime strtod D E) as Hr.
      unfold document in Hr. by rewrite H in Hr.
  - by rewrite process_workouts_broken.
Qed.

Implicit Types (c : Call Timestamp Num).

Lemma record_call_inv c ds ds' :
  record_call c ds = Ok ds' →
  ∃ summary, recorded_summary c = Some summary ∧
             ds' = dict_set (clean_metric_name (call_name c)) summary ds.
Proof.
  unfold recorded_summary, record_call. intros H.
  apply add_dataset_summary_inv in H as (range & size & Hr & Hs & ->).
  eexists. split; [|done].
  unfold add_dataset_summary. rewrite Hr, Hs. done.
Qed.

Lemma record_all_keys calls ds ds' :
  record_all calls ds = Ok ds' →
  dict_keys ds' =
  foldl (λ seen k, if decide (k ∈ seen) then seen else seen ++ [k]) (dict_keys ds)
    ((λ c, clean_metric_name (call_name c)) <$> calls).
Proof.
  revert ds. induction calls as [|c calls IH]; intros ds; simpl.
  - by intros [= ->].
  - destruct (record_call c ds) as [ds1|] eqn:E; [|done]. cbn [rbind]. intros H.
    apply record_call_inv in E as (summary & _ & ->).
    rewrite (IH _ H). by rewrite dict_keys_set.
Qed.

Lemma record_all_NoDup calls ds ds' :
  record_all calls ds = Ok ds' → NoDup (dict_keys ds) → NoDup (dict_keys ds').
Proof.
  revert ds. induction calls as [|c calls IH]; intros ds; simpl.
  - by intros [= ->].
  - destruct (record_call c ds) as [ds1|] eqn:E; [|done]. cbn [rbind]. intros H Hnd.
    apply record_call_inv in E as (summary & _ & ->).
    apply (IH _ H). by apply dict_keys_set_NoDup.
Qed.

Lemma last_cons_cases {A} (x : A) l :
  last (x :: l) = match last l with Some y => Some y | None => Some x end.
Proof.
  destruct l as [|y l]; [done|].
  change (last (x :: y :: l)) with (last (y :: l)).
  destruct (last (y :: l)) eqn:E; [done|]. by apply last_None in E.
Qed.

Lemma record_all_get calls ds ds' k :
  record_all calls ds = Ok ds' →
  dict_get k ds' =
  match last (filter (λ c, clean_metric_name (call_name c) = k) calls) with
  | Some c => recorded_summary c
  | None => dict_get k ds
  end.
Proof.
  revert ds. induction calls as [|c calls IH]; intros ds; simpl.
  - by intros [= ->].
  - destruct (record_call c ds) as [ds1|] eqn:E; [|done]. cbn [rbind]. intros H.
    apply record_call_inv in E as (summary & Hsum & ->).
    rewrite (IH _ H). rewrite filter_cons. case_decide as Hk.
    + rewrite last_cons_cases.
      destruct (last (filter _ calls)); [done|].
      by rewrite dict_get_set, decide_True.
    + destruct (last (filter _ calls)); [done|].
      by rewrite dict_get_set, decide_False.
Qed.

Lemma dict_get_Dataset_values (row : list (string * Cell Timestamp Num))
    (stats : list (string * Scalar Timestamp Num)) :
  dict_get "Dataset"
    (foldl (λ row sv, dict_set ("Value " +:+ sv.1) (CellValue (Some sv.2)) row) row stats) =
  dict_get "Dataset" row.
Proof.
  revert row. induction stats as [|sv stats IH]; intros row; [done|].
  simpl. rewrite IH, dict_get_set, decide_False; [done|]. discriminate.
Qed.

Lemma report_row_Dataset k (summary : DatasetSummary Timestamp Num) :
  dict_get "Dataset" (report_row k summary) = Some (CellStr k).
Proof.
  unfold report_row. cbv zeta.
  destruct (sample_stats summary) as [[|sv stats]|]; [done| |done].
  by rewrite dict_get_Dataset_values.
Qed.

Lemma create_report_Dataset ds :
  dataset_column (create_report ds) = (λ k, Some (CellStr k)) <$> dict_keys ds.
Proof.
  unfold dataset_column, create_report, dict_keys. destruct ds as [|kv ds]; [done|].
  rewrite <- !list_fmap_compose. apply list_fmap_ext. intros i [k s] _. simpl.
  apply report_row_Dataset.
Qed.

End Report_facts.

(** ** Rows and matching elements *)

Lemma forallb_dated_false {Timestamp} (strptime : string → option Timestamp) key M elem s :
  elem ∈ M → get elem key = Some s → is_nat_string s = false → strptime s = None →
  forallb (dated_with strptime) (attr_column key M) = false.
Proof.
  intros Hin Hget Hnat Hp. apply not_true_is_false. intros H.
  rewrite forallb_forall in H.
  specialize (H (get elem key)). rewrite Hget in H. cbn [dated_with] in H.
  rewrite Hnat, Hp in H. cbn [orb] in H.
  assert (bool_decide (is_Some (@None Timestamp)) = true) as Hb.
  { apply H. apply list_elem_of_In. unfold attr_column.
    apply list_elem_of_fmap. exists elem. by rewrite Hget. }
  apply bool_decide_eq_true in Hb as [? ?]. done.
Qed.

Lemma elem_of_matching_records T D elem :
  elem ∈ matching_records T D ↔
  elem ∈ D ∧ tag elem = "Record" ∧ get elem "type" = Some T.
Proof.
  unfold matching_records, is_record_of. rewrite list_elem_of_filter.
  rewrite andb_True, !bool_decide_spec. tauto.
Qed.

Lemma nrows_records_frame {Timestamp Num} (strptime : string → option Timestamp)
    (strtod : string → option Num) M :
  nrows (records_frame strptime strtod M) = length M.
Proof. by destruct M. Qed.

Lemma matching_records_typed T (D : list Element) :
  T ≠ "" →
  matching_records T (filter (λ elem, lacks_type elem = false) D) = matching_records T D.
Proof.
  intros HT. unfold matching_records. induction D as [|elem D IH]; [done|].
  rewrite !filter_cons. destruct (lacks_type elem) eqn:E.
  - rewrite decide_False by done. rewrite IH.
    rewrite decide_False; [done|]. unfold is_record_of. unfold lacks_type in E.
    apply andb_true_iff in E as [_ E]. apply bool_decide_eq_true in E.
    rewrite andb_True, !bool_decide_spec. intros [_ Hty]. destruct E; congruence.
  - rewrite decide_True by done. rewrite filter_cons. by rewrite IH.
Qed.

Lemma listed_type_typed (D : list Element) :
  omap listed_type (filter (λ elem, lacks_type elem = false) D) = omap listed_type D.
Proof.
  induction D as [|elem D IH]; [done|].
  rewrite filter_cons. destruct (lacks_type elem) eqn:E.
  - rewrite decide_False by done. rewrite IH.
    change (omap listed_type (elem :: D)) with
      (match listed_type elem with Some y => y :: omap listed_type D | None => omap listed_type D end).
    unfold lacks_type in E. apply andb_true_iff in E as [Htag E].
    apply bool_decide_eq_true in E. unfold listed_type at 2. rewrite Htag.
    destruct E as [-> | ->]; done.
  - rewrite decide_True by done.
    change (omap listed_type (elem :: ?l)) with
      (match listed_type elem with Some y => y :: omap listed_type l | None => omap listed_type l end).
    by rewrite IH.
Qed.

Lemma parse_records_by_type_matching {Timestamp Num} (strptime : string → option Timestamp)
    (strtod : string → option Num) D D' T :
  matching_records T D = matching_records T D' →
  parse_records_by_type strptime strtod (document D) T =
  parse_records_by_type strptime strtod (document D') T.
Proof.
  intros H. unfold parse_records_by_type, document. cbn [iterparse rbind].
  by rewrite !collect_records_stream, H.
Qed.

Lemma compute_sample_stats_workouts {Timestamp Num} (strptime : string → option Timestamp)
    (strtod : string → option Num) W :
  compute_sample_stats (workouts_frame strptime strtod W) = None.
Proof. apply compute_sample_stats_absent. by destruct W. Qed.

Lemma dict_get_value_workouts {Timestamp Num} (strptime : string → option Timestamp)
    (strtod : string → option Num) W :
  dict_get "value" (columns (workouts_frame strptime strtod W)) = None.
Proof. by destruct W. Qed.

Lemma compute_sample_stats_keys {Timestamp Num} (df : DataFrame Timestamp Num) stats :
  compute_sample_stats df = Some stats → dict_keys stats = stat_keys.
Proof.
  unfold compute_sample_stats. destruct (has_column "value" df); [|done].
  repeat (match goal with |- context [column_stat ?c ?s ?d] => destruct (column_stat c s d) end;
          cbn [rbind]; [|done]).
  by intros [= <-].
Qed.

(** * The specification's statements *)

(** ** Extraction by type *)

(** C1, at a concrete input: a document with one matching [Record] whose
    [startDate] is not a timestamp. The call raises [ValueError], so no row
    is returned although one element matches. *)
Lemma parse_records_by_type_bad_date :
  length (matching_records step_count bad_start_document) = 1 ∧
  parse_records_by_type export_timestamp decimal_literal
    (document bad_start_document) step_count = Raise (ValueError "yesterday").
Proof. split; reflexivity. Qed.

(** C1, amended: for every document [D] and type [T] such that the
    [startDate] and [endDate] of every matching [Record] are absent or parse,
    [parse_records_by_type] returns the frame with exactly one row per
    [Record] element of [D] whose [type] attribute equals [T], in the order of
    the document; the number of rows is the number of such elements, and
    only [Record] elements are among them, never a [Workout]. *)
Theorem parse_records_by_type_rows {Timestamp Num} (strptime : string → option Timestamp)
    (strtod : string → option Num) (D : list Element) (record_type : string) :
  let M := matching_records record_type D in
  forallb (parses_with strptime) (attr_column "startDate" M) = true →
  forallb (parses_with strptime) (attr_column "endDate" M) = true →
  parse_records_by_type strptime strtod (document D) record_type =
    Ok (records_frame strptime strtod M) ∧
  nrows (records_frame strptime strtod M) = length M ∧
  M `sublist_of` D ∧
  ∀ elem, elem ∈ M ↔ elem ∈ D ∧ tag elem = "Record" ∧ get elem "type" = Some record_type.
Proof.
  intros M Hs He. split_and!.
  - by apply parse_records_by_type_ok; apply parses_dated.
  - apply nrows_records_frame.
  - apply sublist_filter.
  - apply elem_of_matching_records.
Qed.

Lemma parse_records_by_type_rows_witness :
  parse_records_by_type export_timestamp decimal_literal (document three_records) step_count =
    Ok (records_frame export_timestamp decimal_literal (matching_records step_count three_records)) ∧
  nrows (records_frame export_timestamp decimal_literal (matching_records step_count three_records)) =
    length (matching_records step_count three_records) ∧
  matching_records step_count three_records `sublist_of` three_records ∧
  ∀ elem, elem ∈ matching_records step_count three_records ↔
          elem ∈ three_records ∧ tag elem = "Record" ∧ get elem "type" = Some step_count.
Proof.
  apply (parse_records_by_type_rows export_timestamp decimal_literal three_records step_count);
    reflexivity.
Defined.

Example three_records_rows :
  length (matching_records step_count three_records) = 3 ∧
  nrows step_count_frame = 3 ∧
  dict_get "value" (columns step_count_frame) =
    Some (ColObject [Some "100"; Some "200"; Some "abc"]).
Proof. split_and!; reflexivity. Qed.

(** ** Coercion *)

(** C2: the numeric coercion of the value column is all-or-nothing. Whatever
    the frame, when its [value] column holds the raw strings [raw], the
    coercion leaves the column numeric, holding the parsed values, if every
    value that is present parses, and leaves the frame as it was, strings
    and all, if one does not. So ["1.0"; "2.5"; "x"] stays a column of
    strings and ["1.0"; "2.5"; "3.0"] becomes [1.0; 2.5; 3.0]. *)
Theorem value_coercion_all_or_nothing :
  (∀ (Timestamp Num : Type) (strtod : string → option Num)
     (df : DataFrame Timestamp Num) (raw : list (option string)),
     let typed := if forallb (parses_with strtod) raw
                  then ColNumeric ((λ v, v ≫= strtod) <$> raw)
                  else ColObject raw in
     convert_value strtod (setitem "value" (ColObject raw) df) = setitem "value" typed df ∧
     is_numeric typed = forallb (parses_with strtod) raw) ∧
  convert_value decimal_literal
    (mkDataFrame (Timestamp:=Z) 3 [("value", ColObject [Some "1.0"; Some "2.5"; Some "x"])]) =
    mkDataFrame 3 [("value", ColObject [Some "1.0"; Some "2.5"; Some "x"])] ∧
  convert_value decimal_literal
    (mkDataFrame (Timestamp:=Z) 3 [("value", ColObject [Some "1.0"; Some "2.5"; Some "3.0"])]) =
    mkDataFrame 3 [("value", ColNumeric [Some 1%Q; Some (5 # 2)%Q; Some 3%Q])].
Proof.
  split_and!.
  - intros Timestamp Num strtod df raw typed. split.
    + apply convert_value_setitem.
    + unfold typed. by destruct (forallb (parses_with strtod) raw).
  - reflexivity.
  - reflexivity.
Qed.

(** C3, at a concrete input: a step count whose [endDate] is the text
    [yesterday], and a workout with that [startDate]. The coercion raises
    [ValueError] instead of returning a null timestamp, and both extractions
    fail. *)
Lemma malformed_date_raises :
  datetime_of export_timestamp (Some "yesterday") = Raise (ValueError "yesterday") ∧
  parse_records_by_type export_timestamp decimal_literal (document bad_end_document) step_count =
    Raise (ValueError "yesterday") ∧
  process_workouts export_timestamp decimal_literal (document bad_end_document) =
    Raise (ValueError "yesterday").
Proof. split_and!; reflexivity. Qed.

(** C3, amended: timestamp coercion returns null for an absent attribute
    and for a string pandas reads as missing, the empty string among them.
    On any other string that does not parse it raises [ValueError]; the
    extraction of a type from a document that has a matching [Record] with
    such a [startDate] or [endDate] raises, and so does the extraction of
    workouts from a document that has such a [Workout]. *)
Theorem timestamp_coercion_raises_on_malformed {Timestamp Num}
    (strptime : string → option Timestamp) (strtod : string → option Num)
    (D : list Element) (elem : Element) (key s : string) :
  elem ∈ D → key = "startDate" ∨ key = "endDate" →
  get elem key = Some s → is_nat_string s = false → strptime s = None →
  datetime_of strptime None = Ok None ∧
  (∀ s', is_nat_string s' = true → datetime_of strptime (Some s') = Ok None) ∧
  datetime_of strptime (Some s) = Raise (ValueError s) ∧
  (∀ record_type, is_record_of record_type elem →
     is_ok (parse_records_by_type strptime strtod (document D) record_type) = false) ∧
  (tag elem = "Workout" → is_ok (process_workouts strptime strtod (document D)) = false).
Proof.
  intros Hin Hkey Hget Hnat Hs. split_and!.
  - done.
  - intros s' Hs'. cbn [datetime_of]. by rewrite Hs'.
  - cbn [datetime_of]. by rewrite Hnat, Hs.
  - intros T HT. apply parse_records_by_type_raise. apply andb_false_iff.
    assert (elem ∈ matching_records T D) as HM.
    { unfold matching_records. apply list_elem_of_filter. done. }
    destruct Hkey as [->| ->]; [left|right]; by eapply forallb_dated_false.
  - intros Htag. apply process_workouts_raise. apply andb_false_iff.
    assert (elem ∈ workouts_of D) as HW.
    { unfold workouts_of. apply list_elem_of_filter. done. }
    destruct Hkey as [->| ->]; [left|right]; by eapply forallb_dated_false.
Qed.

Lemma timestamp_coercion_raises_on_malformed_witness :
  datetime_of export_timestamp None = Ok None ∧
  (∀ s', is_nat_string s' = true → datetime_of export_timestamp (Some s') = Ok None) ∧
  datetime_of export_timestamp (Some "yesterday") = Raise (ValueError "yesterday") ∧
  (∀ record_type,
     is_record_of record_type
       (Record_ [("type", step_count); ("startDate", "yesterday"); ("value", "100")]) →
     is_ok (parse_records_by_type export_timestamp decimal_literal
              (document bad_start_document) record_type) = false) ∧
  (tag (Record_ [("type", step_count); ("startDate", "yesterday"); ("value", "100")]) = "Workout" →
   is_ok (process_workouts export_timestamp decimal_literal (document bad_start_document)) = false).
Proof.
  apply (timestamp_coercion_raises_on_malformed export_timestamp decimal_literal
           bad_start_document
           (Record_ [("type", step_count); ("startDate", "yesterday"); ("value", "100")])
           "startDate" "yesterday").
  - left.
  - by left.
  - reflexivity.
  - reflexivity.
  - reflexivity.
Defined.

(** An empty [startDate] and an [endDate] spelled [NaT]: the extraction
    returns the row, with both timestamps null. *)
Example null_dates_are_read_as_missing :
  parse_records_by_type export_timestamp decimal_literal (document null_dates_document)
    step_count =
  Ok (mkDataFrame 1
        [ ("startDate", ColDatetime [None]); ("endDate", ColDatetime [None]);
          ("value", ColNumeric [Some 100%Q]); ("unit", ColObject [None]);
          ("device", ColObject [None]); ("sourceName", ColObject [None]) ]).
Proof. reflexivity. Qed.

(** ** The catalogue of types *)

(** C4, at a concrete input: a [Record] whose [type] attribute is the empty
    string. The attribute is there, the catalogue is empty. *)
Lemma get_available_record_types_skips_empty :
  tag (Record_ [("type", "")]) = "Record" ∧
  get (Record_ [("type", "")]) "type" = Some "" ∧
  get_available_record_types (document [Record_ [("type", "")]]) = Ok [].
Proof. split_and!; reflexivity. Qed.

(** C4, amended: for every document, [get_available_record_types] returns
    the non-empty [type] attributes of its [Record] elements, each once,
    sorted lexicographically; [Workout] elements contribute nothing. *)
Theorem get_available_record_types_sorted_distinct (D : list Element) :
  ∃ l, get_available_record_types (document D) = Ok l ∧
       StronglySorted String.le l ∧ NoDup l ∧
       ∀ t, t ∈ l ↔ t ≠ "" ∧ ∃ elem, elem ∈ D ∧ tag elem = "Record" ∧ get elem "type" = Some t.
Proof.
  eexists. split; [apply get_available_record_types_document|]. split_and!.
  - apply StronglySorted_merge_sort; apply _.
  - unfold sorted. rewrite merge_sort_Permutation. apply NoDup_elements.
  - intros t. rewrite elem_of_sorted, elem_of_elements, elem_of_list_to_set, list_elem_of_omap.
    unfold listed_type. split.
    + intros (elem & Hin & H). case_bool_decide; [|done].
      destruct (get elem "type") as [t'|] eqn:Ht; [|done].
      case_bool_decide; [|done]. simplify_eq. eauto.
    + intros (Hne & elem & Hin & Htag & Ht). exists elem. split; [done|].
      rewrite bool_decide_eq_true_2, Ht by done. by rewrite bool_decide_eq_true_2.
Qed.

(** C10: [Record] elements whose [type] is absent or empty cannot be seen
    from outside. For a non-empty requested type, extraction gives the same
    result on the document as on the document without these elements, and
    every element it matches carries the requested type; the catalogue is
    the same with and without them and never holds the empty string. *)
Theorem untyped_records_invisible {Timestamp Num} (strptime : string → option Timestamp)
    (strtod : string → option Num) (D : list Element) (record_type : string) :
  record_type ≠ "" →
  let typed := filter (λ elem, lacks_type elem = false) D in
  parse_records_by_type strptime strtod (document D) record_type =
    parse_records_by_type strptime strtod (document typed) record_type ∧
  get_available_record_types (document D) = get_available_record_types (document typed) ∧
  (∀ elem, elem ∈ matching_records record_type D → get elem "type" = Some record_type) ∧
  ∃ l, get_available_record_types (document D) = Ok l ∧ "" ∉ l.
Proof.
  intros HT typed. split_and!.
  - apply parse_records_by_type_matching. unfold typed. by rewrite matching_records_typed.
  - rewrite !get_available_record_types_document. unfold typed. by rewrite listed_type_typed.
  - intros elem Hin. unfold matching_records, is_record_of in Hin.
    apply list_elem_of_filter in Hin as [Hin _].
    apply andb_True in Hin as [_ Hin]. by apply bool_decide_spec in Hin.
  - eexists. split; [apply get_available_record_types_document|].
    rewrite elem_of_sorted, elem_of_elements, elem_of_list_to_set, list_elem_of_omap.
    intros (elem & _ & H). unfold listed_type in H.
    case_bool_decide; [|done]. destruct (get elem "type"); [|done].
    case_bool_decide; [|done]. by simplify_eq.
Qed.

Lemma untyped_records_invisible_witness :
  let typed := filter (λ elem, lacks_type elem = false) untyped_document in
  parse_records_by_type export_timestamp decimal_literal (document untyped_document) step_count =
    parse_records_by_type export_timestamp decimal_literal (document typed) step_count ∧
  get_available_record_types (document untyped_document) =
    get_available_record_types (document typed) ∧
  (∀ elem, elem ∈ matching_records step_count untyped_document →
           get elem "type" = Some step_count) ∧
  ∃ l, get_available_record_types (document untyped_document) = Ok l ∧ "" ∉ l.
Proof.
  apply (untyped_records_invisible export_timestamp decimal_literal untyped_document step_count).
  discriminate.
Defined.

Example untyped_document_types :
  get_available_record_types (document untyped_document) = Ok [step_count] ∧
  length (matching_records step_count untyped_document) = 1.
Proof. split; reflexivity. Qed.

(** ** Workouts *)

(** C7: in the frame [process_workouts] returns, [duration],
    [totalDistance] and [totalEnergyBurned] are numeric columns, each
    coerced on its own: the value in a row is the parsed attribute of that
    row's workout, null when the attribute is absent or does not parse,
    whatever the other rows and the other columns hold. *)
Theorem process_workouts_numeric_per_row {Timestamp Num} (strptime : string → option Timestamp)
    (strtod : string → option Num) (src : Source) (df : DataFrame Timestamp Num) :
  process_workouts strptime strtod src = Ok df →
  ∃ D, src = document D ∧ nrows df = length (workouts_of D) ∧
    ∀ col i elem,
      col ∈ ["duration"; "totalDistance"; "totalEnergyBurned"] →
      workouts_of D !! i = Some elem →
      ∃ vs, dict_get col (columns df) = Some (ColNumeric vs) ∧
            length vs = nrows df ∧
            vs !! i = Some (get elem col ≫= strtod).
Proof.
  intros H. apply process_workouts_inv in H as (D & -> & ->). exists D. split; [done|].
  destruct (workouts_of D) as [|e0 W'] eqn:EW; [by split; [|intros ???? [=]]|].
  split; [done|]. intros col i elem Hcol Hi.
  exists ((λ v, v ≫= strtod) <$> attr_column col (e0 :: W')). split_and!.
  - rewrite !elem_of_cons, elem_of_nil in Hcol.
    destruct Hcol as [->|[->|[->|[]]]]; reflexivity.
  - unfold attr_column. by rewrite !length_fmap.
  - unfold attr_column. rewrite <- list_fmap_compose, list_lookup_fmap, Hi. done.
Qed.

Lemma process_workouts_numeric_per_row_witness :
  ∃ D, document two_workouts = document D ∧
    nrows two_workouts_frame = length (workouts_of D) ∧
    ∀ col i elem,
      col ∈ ["duration"; "totalDistance"; "totalEnergyBurned"] →
      workouts_of D !! i = Some elem →
      ∃ vs, dict_get col (columns two_workouts_frame) = Some (ColNumeric vs) ∧
            length vs = nrows two_workouts_frame ∧
            vs !! i = Some (get elem col ≫= decimal_literal).
Proof.
  apply (process_workouts_numeric_per_row export_timestamp decimal_literal
           (document two_workouts) two_workouts_frame).
  reflexivity.
Defined.

Example two_workouts_columns :
  dict_get "duration" (columns two_workouts_frame) = Some (ColNumeric [Some (61 # 2)%Q; None]) ∧
  dict_get "totalDistance" (columns two_workouts_frame) =
    Some (ColNumeric [Some (26 # 5)%Q; Some 1%Q]) ∧
  dict_get "totalEnergyBurned" (columns two_workouts_frame) = Some (ColNumeric [None; None]).
Proof. split_and!; reflexivity. Qed.

(** ** Failures of the traversal *)

(** C8: when the stream aborts with [e] after any number of elements, or
    the file cannot be opened, each of the three traversals raises [e] and
    returns nothing of what it had gathered, and the orchestrator step that
    called the extraction leaves the session, with every summary of its
    report, as it was. *)
Theorem traversal_failure_aborts_call {Timestamp Num} (strptime : string → option Timestamp)
    (strtod : string → option Num) (csv_size : DataFrame Timestamp Num → Z)
    (writable : string → bool)
    (D : list Element) (e : Exn) (record_type : string) (sess : Session Timestamp Num) :
  let failing := Readable (broken_stream D e) in
  parse_records_by_type strptime strtod failing record_type = Raise e ∧
  get_available_record_types failing = Raise e ∧
  process_workouts strptime strtod failing = Raise e ∧
  save_metric_data strptime strtod csv_size writable failing record_type sess = sess ∧
  parse_records_by_type strptime strtod (Unreadable e) record_type = Raise e ∧
  get_available_record_types (Unreadable e) = Raise e ∧
  process_workouts strptime strtod (Unreadable e) = Raise e ∧
  save_metric_data strptime strtod csv_size writable (Unreadable e) record_type sess = sess.
Proof.
  intros failing. unfold failing. split_and!.
  - apply parse_records_by_type_broken.
  - apply get_available_record_types_broken.
  - apply process_workouts_broken.
  - unfold save_metric_data. by rewrite parse_records_by_type_broken.
  - done.
  - done.
  - done.
  - done.
Qed.

Example broken_after_two_matches :
  parse_records_by_type export_timestamp decimal_literal
    (Readable (broken_stream three_records (ParseError "unclosed token"))) step_count =
  Raise (ParseError "unclosed token").
Proof. reflexivity. Qed.

(** ** Summaries and the report *)

(** C5, at a concrete input: a frame with a numeric [value] column and no
    rows. [add_dataset_summary] never looks at the number of rows: the
    summary has no records and the five statistics. *)
Lemma sample_stats_without_rows :
  nrows empty_numeric_frame = 0 ∧
  (∃ c, dict_get "value" (columns empty_numeric_frame) = Some c ∧ is_numeric c = true) ∧
  ∃ summary,
    add_dataset_summary {[ "out/Empty.csv" := 6%Z ]} "Empty" empty_numeric_frame
      "out/Empty.csv" [] = Ok [("Empty", summary)] ∧
    record_count summary = 0 ∧
    (dict_keys <$> sample_stats summary) = Some stat_keys.
Proof. split_and!; [reflexivity|by eexists|]. eexists. split_and!; reflexivity. Qed.

(** C5, amended: for a frame returned by one of the two extractions and
    recorded with [add_dataset_summary], the stored summary has
    [sample_stats] if and only if the frame has a [value] column of numeric
    type and at least one row; when present, the statistics are mean, median,
    std, min and max. Such a frame has a [value] column only when it has a
    row, which is why the number of rows, which [add_dataset_summary] never
    tests, plays no part for it. *)
Theorem sample_stats_iff_numeric {Timestamp Num} (strptime : string → option Timestamp)
    (strtod : string → option Num) (src : Source) (record_type : string)
    (df : DataFrame Timestamp Num) (files : gmap string Z) (raw_name path : string)
    (datasets datasets' : list (string * DatasetSummary Timestamp Num)) :
  parse_records_by_type strptime strtod src record_type = Ok df ∨
    process_workouts strptime strtod src = Ok df →
  add_dataset_summary files raw_name df path datasets = Ok datasets' →
  ∃ summary,
    dict_get (clean_metric_name raw_name) datasets' = Some summary ∧
    (is_Some (sample_stats summary) ↔
       (∃ c, dict_get "value" (columns df) = Some c ∧ is_numeric c = true) ∧ 1 ≤ nrows df) ∧
    (∀ stats, sample_stats summary = Some stats → dict_keys stats = stat_keys) ∧
    (is_Some (dict_get "value" (columns df)) → 1 ≤ nrows df).
Proof.
  intros Hdf Hadd.
  apply add_dataset_summary_inv in Hadd as (range & size & _ & _ & ->).
  eexists. split; [by rewrite dict_get_set, decide_True|]. cbn [sample_stats]. split_and!.
  - destruct Hdf as [Hdf|Hdf].
    + apply parse_records_by_type_inv in Hdf as (D & _ & ->).
      apply compute_sample_stats_records.
    + apply process_workouts_inv in Hdf as (D & _ & ->).
      rewrite compute_sample_stats_workouts, dict_get_value_workouts.
      split; [by intros [? ?]|]. by intros [(c & ? & _) _].
  - apply compute_sample_stats_keys.
  - destruct Hdf as [Hdf|Hdf].
    + apply parse_records_by_type_inv in Hdf as (D & _ & ->).
      destruct (matching_records record_type D); [by intros [? ?]|simpl; lia].
    + apply process_workouts_inv in Hdf as (D & _ & ->).
      rewrite dict_get_value_workouts. by intros [? ?].
Qed.

Lemma sample_stats_iff_numeric_witness :
  ∃ summary,
    dict_get (clean_metric_name step_count) step_count_report = Some summary ∧
    (is_Some (sample_stats summary) ↔
       (∃ c, dict_get "value" (columns step_count_frame) = Some c ∧ is_numeric c = true) ∧
       1 ≤ nrows step_count_frame) ∧
    (∀ stats, sample_stats summary = Some stats → dict_keys stats = stat_keys) ∧
    (is_Some (dict_get "value" (columns step_count_frame)) → 1 ≤ nrows step_count_frame).
Proof.
  apply (sample_stats_iff_numeric export_timestamp decimal_literal (document three_records)
           step_count step_count_frame {[ step_count_path := 58%Z ]} step_count step_count_path []).
  - left. reflexivity.
  - reflexivity.
Defined.

(** The values "100", "200" and "abc": three rows and no statistics. *)
Example step_count_report_has_no_stats :
  (λ kv : string * DatasetSummary Z Q, (kv.1, record_count kv.2, sample_stats kv.2))
    <$> step_count_report = [("StepCount (Quantity)", 3, None)].
Proof. reflexivity. Qed.

(** C6, at a concrete input: a name with two known prefixes. The first
    cleaning removes one, the second removes the other and appends a second
    suffix. *)
Lemma clean_metric_name_not_idempotent :
  clean_metric_name "HKQuantityTypeIdentifierHKCategoryTypeIdentifier" =
    "HKCategoryTypeIdentifier (Quantity)" ∧
  clean_metric_name (clean_metric_name "HKQuantityTypeIdentifierHKCategoryTypeIdentifier") =
    " (Quantity) (Category)" ∧
  clean_metric_name (clean_metric_name "HKQuantityTypeIdentifierHKCategoryTypeIdentifier") ≠
    clean_metric_name "HKQuantityTypeIdentifierHKCategoryTypeIdentifier".
Proof. split_and!; [reflexivity|reflexivity|discriminate]. Qed.

(** C6, amended: cleaning twice gives what cleaning once gives exactly
    when no known prefix occurs in what the first cleaning keeps of the name,
    that is, in the name without the occurrences of the first known prefix
    found in it. This holds for every name in which no known prefix occurs,
    and for every identifier made of a known prefix and a remainder in which
    none occurs, which is cleaned to the remainder, a space and the indicator
    of the prefix; so ["HKQuantityTypeIdentifierStepCount"] cleans to
    ["StepCount (Quantity)"]. *)
Theorem clean_metric_name_idempotent_iff (name : string) :
  (clean_metric_name (clean_metric_name name) = clean_metric_name name ↔
     prefix_free (cleaned_name name) = true) ∧
  (prefix_free name = true →
     clean_metric_name (clean_metric_name name) = clean_metric_name name) ∧
  (∀ p ind r,
     name = p +:+ r → dict_get p type_indicators = Some ind → prefix_free r = true →
     clean_metric_name name = r +:+ " " +:+ ind ∧
     clean_metric_name (clean_metric_name name) = clean_metric_name name) ∧
  clean_metric_name "HKQuantityTypeIdentifierStepCount" = "StepCount (Quantity)".
Proof.
  split_and!.
  - by rewrite clean_metric_name_fixed, prefix_free_clean.
  - intros H. by rewrite !(clean_metric_name_absent name H).
  - intros p ind r -> Hp Hr. rewrite (clean_metric_name_known_prefix _ _ _ Hp Hr).
    split; [done|]. apply clean_metric_name_fixed.
    rewrite prefix_free_app_indicator; [done|by eapply indicator_of_known_prefix].
  - reflexivity.
Qed.

(** A name without a known prefix, and one with the prefix in the middle. *)
Example clean_workouts :
  clean_metric_name "Workouts" = "Workouts" ∧
  clean_metric_name (clean_metric_name "Workouts") = clean_metric_name "Workouts".
Proof. split; reflexivity. Qed.

Example clean_inner_prefix :
  cleaned_name "MyHKQuantityTypeIdentifierStepCount" = "MyStepCount" ∧
  clean_metric_name "MyHKQuantityTypeIdentifierStepCount" = "MyStepCount (Quantity)" ∧
  clean_metric_name (clean_metric_name "MyHKQuantityTypeIdentifierStepCount") =
    clean_metric_name "MyHKQuantityTypeIdentifierStepCount".
Proof. split_and!; reflexivity. Qed.

Example clean_step_count :
  clean_metric_name "HKQuantityTypeIdentifierStepCount" = "StepCount (Quantity)".
Proof. reflexivity. Qed.

(** C9: after any sequence of successful [add_dataset_summary] calls on an
    empty report, the rows of [create_report] carry the cleaned names in the
    order in which each was first recorded, no name twice, and the summary
    under a name is the one of the last call with that cleaned name: a later
    call overwrites the entry where it stands. *)
Theorem report_order {Timestamp Num} (calls : list (Call Timestamp Num))
    (ds : list (string * DatasetSummary Timestamp Num)) :
  record_all calls [] = Ok ds →
  dataset_column (create_report ds) =
    (λ k, Some (CellStr k)) <$> first_seen ((λ c, clean_metric_name (call_name c)) <$> calls) ∧
  NoDup (dict_keys ds) ∧
  ∀ k, dict_get k ds =
       last (filter (λ c, clean_metric_name (call_name c) = k) calls) ≫= recorded_summary.
Proof.
  intros H. split_and!.
  - rewrite create_report_Dataset. by rewrite (record_all_keys _ _ _ H).
  - apply (record_all_NoDup _ _ _ H). constructor.
  - intros k. rewrite (record_all_get _ _ _ k H). by destruct (last _).
Qed.

Lemma report_order_witness :
  dataset_column (create_report sample_report) =
    (λ k, Some (CellStr k)) <$>
      first_seen ((λ c, clean_metric_name (call_name c)) <$> sample_calls) ∧
  NoDup (dict_keys sample_report) ∧
  ∀ k, dict_get k sample_report =
       last (filter (λ c, clean_metric_name (call_name c) = k) sample_calls) ≫= recorded_summary.
Proof. apply (report_order sample_calls sample_report). reflexivity. Defined.

(** Step counts, workouts, step counts again: two rows, the step counts
    first, with the summary of the third call. *)
Example sample_report_rows :
  dataset_column (create_report sample_report) =
    [Some (CellStr "StepCount (Quantity)"); Some (CellStr "Workouts")] ∧
  (record_count <$> dict_get "StepCount (Quantity)" sample_report) = Some 0 ∧
  (file_size <$> dict_get "StepCount (Quantity)" sample_report) = Some 1%Z.
Proof. split_and!; reflexivity. Qed.

(** * Further properties of the code *)

(** ** Workouts and the conditions of failure *)

Section Extraction_facts.
Context {Timestamp Num : Type}.
Variable strptime : string → option Timestamp.
Variable strtod : string → option Num.

Lemma elem_of_workouts_of D elem : elem ∈ workouts_of D ↔ elem ∈ D ∧ tag elem = "Workout".
Proof. unfold workouts_of. rewrite list_elem_of_filter. tauto. Qed.

Lemma nrows_workouts_frame W : nrows (workouts_frame strptime strtod W) = length W.
Proof. by destruct W. Qed.

(** X1: when the [startDate] and [endDate] of every [Workout] are absent
    or parse, [process_workouts] returns the frame with exactly one row per
    [Workout] element of the document, in the order of the document; a
    [Record] is never among them. *)
Theorem process_workouts_rows (D : list Element) :
  let W := workouts_of D in
  forallb (parses_with strptime) (attr_column "startDate" W) = true →
  forallb (parses_with strptime) (attr_column "endDate" W) = true →
  process_workouts strptime strtod (document D) = Ok (workouts_frame strptime strtod W) ∧
  nrows (workouts_frame strptime strtod W) = length W ∧
  W `sublist_of` D ∧
  ∀ elem, elem ∈ W ↔ elem ∈ D ∧ tag elem = "Workout".
Proof.
  intros W Hs He. split_and!.
  - by apply process_workouts_ok; apply parses_dated.
  - apply nrows_workouts_frame.
  - apply sublist_filter.
  - apply elem_of_workouts_of.
Qed.

Lemma is_ok_parse_records_by_type D T :
  is_ok (parse_records_by_type strptime strtod (document D) T) =
  forallb (dated_with strptime) (attr_column "startDate" (matching_records T D)) &&
  forallb (dated_with strptime) (attr_column "endDate" (matching_records T D)).
Proof.
  destruct (forallb _ _ && forallb _ _) eqn:E.
  - apply andb_true_iff in E as [Es Ee].
    by rewrite (parse_records_by_type_ok strptime strtod D T Es Ee).
  - by apply parse_records_by_type_raise.
Qed.

Lemma is_ok_process_workouts D :
  is_ok (process_workouts strptime strtod (document D)) =
  forallb (dated_with strptime) (attr_column "startDate" (workouts_of D)) &&
  forallb (dated_with strptime) (attr_column "endDate" (workouts_of D)).
Proof.
  destruct (forallb _ _ && forallb _ _) eqn:E.
  - apply andb_true_iff in E as [Es Ee].
    by rewrite (process_workouts_ok strptime strtod D Es Ee).
  - by apply process_workouts_raise.
Qed.

(** X2: whether the extraction of a type returns depends on the dates of
    the matched elements only. Two documents whose matching [Record] elements
    carry the same [startDate] and [endDate] values, in order, are both
    extracted or both refused, whatever their values, units, devices and
    sources are and whatever else the documents hold: a value never makes the
    call fail. *)
Theorem extraction_outcome_depends_on_dates_only (D D' : list Element) (record_type : string) :
  attr_column "startDate" (matching_records record_type D) =
    attr_column "startDate" (matching_records record_type D') →
  attr_column "endDate" (matching_records record_type D) =
    attr_column "endDate" (matching_records record_type D') →
  is_ok (parse_records_by_type strptime strtod (document D) record_type) =
  is_ok (parse_records_by_type strptime strtod (document D') record_type).
Proof. intros Hs He. by rewrite !is_ok_parse_records_by_type, Hs, He. Qed.

Lemma parse_records_by_type_no_match D T :
  matching_records T D = [] →
  parse_records_by_type strptime strtod (document D) T = Ok empty_frame.
Proof.
  intros H. unfold parse_records_by_type, document. cbn [iterparse rbind].
  rewrite collect_records_stream, H. done.
Qed.

(** X3: a type no [Record] of the document carries is extracted as the
    frame without rows and columns, whatever else the document holds, and
    recording that frame stores a summary with no records, no columns, the
    date range [(None, None)] and no statistics. *)
Theorem empty_extraction_summary (D : list Element) (record_type raw_name path : string)
    (files : gmap string Z) (size : Z)
    (datasets : list (string * DatasetSummary Timestamp Num)) :
  matching_records record_type D = [] →
  files !! path = Some size →
  parse_records_by_type strptime strtod (document D) record_type = Ok empty_frame ∧
  add_dataset_summary files raw_name (@empty_frame Timestamp Num) path datasets =
    Ok (dict_set (clean_metric_name raw_name)
          (mkDatasetSummary (clean_metric_name raw_name) 0 (None, None) path [] size [] None)
          datasets).
Proof.
  intros HM Hsize. split; [by apply parse_records_by_type_no_match|].
  unfold add_dataset_summary, st_size. rewrite Hsize. done.
Qed.

Lemma records_frame_rectangular M : rectangular record_columns (records_frame strptime strtod M).
Proof.
  destruct M as [|e0 M']; [by left|]. right. set (M := e0 :: M').
  split_and!; [simpl; lia|done|].
  unfold records_frame, coerced_value. cbn [columns nrows M].
  destruct (forallb _ _);
    (rewrite !Forall_cons, Forall_nil; cbn [snd column_length]; unfold attr_column;
     rewrite ?length_fmap; done).
Qed.

Lemma workouts_frame_rectangular W : rectangular workout_columns (workouts_frame strptime strtod W).
Proof.
  destruct W as [|e0 W']; [by left|]. right. set (W := e0 :: W').
  split_and!; [simpl; lia|done|].
  unfold workouts_frame. cbn [columns nrows W].
  (rewrite !Forall_cons, Forall_nil; cbn [snd column_length]; unfold attr_column;
     rewrite ?length_fmap; done).
Qed.

(** X4: a frame [parse_records_by_type] returns either has no rows and no
    columns, or has at least one row and the six columns [startDate],
    [endDate], [value], [unit], [device], [sourceName] in this order, each
    holding one entry per row. *)
Theorem parsed_frame_is_rectangular (src : Source) (record_type : string)
    (df : DataFrame Timestamp Num) :
  parse_records_by_type strptime strtod src record_type = Ok df →
  rectangular record_columns df.
Proof. intros (D & _ & ->)%parse_records_by_type_inv. apply records_frame_rectangular. Qed.

(** X5: a frame [process_workouts] returns either has no rows and no
    columns, or has at least one row and the seven workout columns in the
    order of the source, each holding one entry per row. *)
Theorem workouts_frame_is_rectangular (src : Source) (df : DataFrame Timestamp Num) :
  process_workouts strptime strtod src = Ok df →
  rectangular workout_columns df.
Proof. intros (D & _ & ->)%process_workouts_inv. apply workouts_frame_rectangular. Qed.

End Extraction_facts.

Lemma extraction_outcome_depends_on_dates_only_witness :
  is_ok (parse_records_by_type export_timestamp decimal_literal (document three_records)
           step_count) =
  is_ok (parse_records_by_type export_timestamp decimal_literal
           (document
              [ Record_ [("type", step_count); ("startDate", "2024-01-15 08:30:00 -0700");
                         ("value", "n/a"); ("unit", "count")];
                Record_ [("type", step_count); ("startDate", "2024-01-15 09:30:00 -0700")];
                Record_ [("type", heart_rate); ("startDate", "yesterday")];
                Record_ [("type", step_count); ("value", "7"); ("device", "watch")] ])
           step_count).
Proof.
  apply (extraction_outcome_depends_on_dates_only export_timestamp decimal_literal three_records
           [ Record_ [("type", step_count); ("startDate", "2024-01-15 08:30:00 -0700");
                      ("value", "n/a"); ("unit", "count")];
             Record_ [("type", step_count); ("startDate", "2024-01-15 09:30:00 -0700")];
             Record_ [("type", heart_rate); ("startDate", "yesterday")];
             Record_ [("type", step_count); ("value", "7"); ("device", "watch")] ]
           step_count); reflexivity.
Defined.

Lemma process_workouts_rows_witness :
  process_workouts export_timestamp decimal_literal (document two_workouts) =
    Ok (workouts_frame export_timestamp decimal_literal (workouts_of two_workouts)) ∧
  nrows (workouts_frame export_timestamp decimal_literal (workouts_of two_workouts)) =
    length (workouts_of two_workouts) ∧
  workouts_of two_workouts `sublist_of` two_workouts ∧
  ∀ elem, elem ∈ workouts_of two_workouts ↔ elem ∈ two_workouts ∧ tag elem = "Workout".
Proof.
  apply (process_workouts_rows export_timestamp decimal_literal two_workouts); reflexivity.
Defined.

Lemma empty_extraction_summary_witness :
  parse_records_by_type export_timestamp decimal_literal (document three_records)
    "HKQuantityTypeIdentifierBodyMass" = Ok empty_frame ∧
  add_dataset_summary {[ "out/BodyMass.csv" := 1%Z ]} "HKQuantityTypeIdentifierBodyMass"
    (@empty_frame Z Q) "out/BodyMass.csv" [] =
    Ok (dict_set (clean_metric_name "HKQuantityTypeIdentifierBodyMass")
          (mkDatasetSummary (clean_metric_name "HKQuantityTypeIdentifierBodyMass") 0
             (None, None) "out/BodyMass.csv" [] 1%Z [] None) []).
Proof.
  apply (empty_extraction_summary export_timestamp decimal_literal three_records
           "HKQuantityTypeIdentifierBodyMass" "HKQuantityTypeIdentifierBodyMass"
           "out/BodyMass.csv" {[ "out/BodyMass.csv" := 1%Z ]} 1%Z []); reflexivity.
Defined.

Lemma parsed_frame_is_rectangular_witness : rectangular record_columns step_count_frame.
Proof.
  apply (parsed_frame_is_rectangular export_timestamp decimal_literal
           (document three_records) step_count step_count_frame).
  reflexivity.
Defined.

Lemma workouts_frame_is_rectangular_witness : rectangular workout_columns two_workouts_frame.
Proof.
  apply (workouts_frame_is_rectangular export_timestamp decimal_literal
           (document two_workouts) two_workouts_frame).
  reflexivity.
Defined.

(** ** The catalogue and the extractions together *)

Lemma is_record_of_listed T elem :
  T ≠ "" → is_record_of T elem = bool_decide (listed_type elem = Some T).
Proof.
  intros HT. unfold is_record_of, listed_type.
  destruct (bool_decide (tag elem = "Record")); cbn [andb];
    [|symmetry; by apply bool_decide_eq_false_2].
  destruct (get elem "type") as [t|];
    [|by rewrite bool_decide_eq_false_2].
  destruct (decide (t = T)) as [->|Hne].
  - rewrite (bool_decide_eq_true_2 (T ≠ "")) by done. by rewrite !bool_decide_eq_true_2.
  - rewrite (bool_decide_eq_false_2 (Some t = Some T)) by congruence.
    symmetry. apply bool_decide_eq_false_2. case_bool_decide; congruence.
Qed.

Lemma listed_type_nonempty elem t : listed_type elem = Some t → t ≠ "".
Proof.
  unfold listed_type. case_bool_decide; [|done]. destruct (get elem "type"); [|done].
  case_bool_decide; [|done]. by intros [= <-].
Qed.

Lemma elem_of_catalogue D l t :
  get_available_record_types (document D) = Ok l →
  t ∈ l ↔ ∃ elem, elem ∈ D ∧ listed_type elem = Some t.
Proof.
  rewrite get_available_record_types_document. intros [= <-].
  by rewrite elem_of_sorted, elem_of_elements, elem_of_list_to_set, list_elem_of_omap.
Qed.

Lemma matching_records_nonempty T D :
  T ≠ "" → matching_records T D ≠ [] ↔ ∃ elem, elem ∈ D ∧ listed_type elem = Some T.
Proof.
  intros HT. split.
  - intros H. destruct (matching_records T D) as [|elem M] eqn:E; [done|].
    exists elem. assert (elem ∈ matching_records T D) as Hin by (rewrite E; left).
    unfold matching_records in Hin. apply list_elem_of_filter in Hin as [Hr Hin].
    split; [done|]. rewrite is_record_of_listed in Hr by done. by apply bool_decide_spec in Hr.
  - intros (elem & Hin & Hl) E.
    assert (elem ∈ matching_records T D) as Hm.
    { unfold matching_records. apply list_elem_of_filter. split; [|done].
      rewrite is_record_of_listed by done. by apply bool_decide_spec. }
    rewrite E in Hm. by apply elem_of_nil in Hm.
Qed.

Lemma stream_inj (D D' : list Element) : stream D = stream D' → D = D'.
Proof.
  revert D'. induction D as [|x D IH]; intros [|y D'] [=]; f_equal; auto.
Qed.

Section Catalogue_facts.
Context {Timestamp Num : Type}.
Variable strptime : string → option Timestamp.
Variable strtod : string → option Num.

(** X6: the catalogue lists exactly the non-empty types whose extraction
    has rows. For a non-empty type, it is in the result of
    [get_available_record_types] if and only if some [Record] matches it;
    extracting a listed type never gives an empty frame, and extracting an
    unlisted one always returns the empty frame. *)
Theorem catalogue_lists_the_nonempty_extractions (D : list Element) (l : list string)
    (record_type : string) :
  get_available_record_types (document D) = Ok l →
  record_type ≠ "" →
  (record_type ∈ l ↔ matching_records record_type D ≠ []) ∧
  (record_type ∈ l →
     ∀ df : DataFrame Timestamp Num,
       parse_records_by_type strptime strtod (document D) record_type = Ok df → 1 ≤ nrows df) ∧
  (record_type ∉ l →
     parse_records_by_type strptime strtod (document D) record_type = Ok empty_frame).
Proof.
  intros Hl HT.
  assert (record_type ∈ l ↔ matching_records record_type D ≠ []) as Hiff.
  { rewrite (elem_of_catalogue _ _ _ Hl). symmetry. by apply matching_records_nonempty. }
  split_and!; [done| |].
  - intros Hin df (D' & HD & ->)%parse_records_by_type_inv.
    assert (D' = D) as ->.
    { unfold document in HD. injection HD as HD. symmetry. by apply stream_inj. }
    rewrite nrows_records_frame. apply Hiff in Hin.
    destruct (matching_records record_type D); [done|simpl; lia].
  - intros Hnin. apply parse_records_by_type_no_match.
    destruct (matching_records record_type D) eqn:E; [done|].
    exfalso. by apply Hnin, Hiff.
Qed.

End Catalogue_facts.

Lemma catalogue_lists_the_nonempty_extractions_witness :
  (step_count ∈ sample_catalogue ↔ matching_records step_count three_records ≠ []) ∧
  (step_count ∈ sample_catalogue →
     ∀ df : DataFrame Z Q,
       parse_records_by_type export_timestamp decimal_literal (document three_records)
         step_count = Ok df → 1 ≤ nrows df) ∧
  (step_count ∉ sample_catalogue →
     parse_records_by_type export_timestamp decimal_literal (document three_records)
       step_count = Ok empty_frame).
Proof.
  apply (catalogue_lists_the_nonempty_extractions export_timestamp decimal_literal
           three_records sample_catalogue step_count); [reflexivity|discriminate].
Defined.

Lemma sum_list_with_add {A} (f g : A → nat) l :
  sum_list_with (λ x, f x + g x) l = sum_list_with f l + sum_list_with g l.
Proof. induction l as [|x l IH]; simpl; lia. Qed.

Lemma sum_list_with_agree {A} (f g : A → nat) l :
  (∀ x, x ∈ l → f x = g x) → sum_list_with f l = sum_list_with g l.
Proof.
  induction l as [|x l IH]; intros H; simpl; [done|].
  rewrite (H x) by left. rewrite IH; [done|]. intros y Hy. apply H. by right.
Qed.

Lemma sum_list_with_zero {A} (f : A → nat) l :
  (∀ x, x ∈ l → f x = 0) → sum_list_with f l = 0.
Proof.
  induction l as [|x l IH]; intros H; simpl; [done|].
  rewrite (H x) by left. rewrite IH; [done|]. intros y Hy. apply H. by right.
Qed.

Lemma sum_list_with_indicator (t0 : string) (f : string → nat) l :
  NoDup l → t0 ∈ l → f t0 = 1 → (∀ t, t ∈ l → t ≠ t0 → f t = 0) → sum_list_with f l = 1.
Proof.
  induction l as [|x l IH]; intros Hnd Hin H1 H0; [by apply elem_of_nil in Hin|].
  apply NoDup_cons in Hnd as [Hx Hnd]. simpl.
  destruct (decide (x = t0)) as [->|Hne].
  - rewrite H1, sum_list_with_zero; [done|].
    intros y Hy. apply H0; [by right|]. intros ->. done.
  - rewrite (H0 x) by (done || left). simpl. apply IH; try done.
    + apply elem_of_cons in Hin as [->|?]; done.
    + intros t Ht. apply H0. by right.
Qed.

Lemma length_matching_records_cons T elem D :
  length (matching_records T (elem :: D)) =
  (if is_record_of T elem then 1 else 0) + length (matching_records T D).
Proof.
  unfold matching_records. rewrite filter_cons. by destruct (is_record_of T elem).
Qed.

Lemma typed_records_sum (l : list string) (D : list Element) :
  NoDup l → "" ∉ l →
  (∀ elem t, elem ∈ D → listed_type elem = Some t → t ∈ l) →
  sum_list_with (λ t, length (matching_records t D)) l =
  length (filter (λ elem, is_Some (listed_type elem)) D).
Proof.
  intros Hnd Hne. induction D as [|elem D IH]; intros Hl.
  - simpl. by apply sum_list_with_zero.
  - rewrite (sum_list_with_agree _ (λ t, (if is_record_of t elem then 1 else 0) +
                                         length (matching_records t D)))
      by (intros t _; apply length_matching_records_cons).
    rewrite sum_list_with_add, IH by (intros ????; eapply Hl; [by right|done]).
    rewrite filter_cons. destruct (listed_type elem) as [t0|] eqn:E.
    + rewrite decide_True by (by eexists). cbn [length].
      enough (sum_list_with (λ t, if is_record_of t elem then 1 else 0) l = 1) as -> by done.
      apply (sum_list_with_indicator t0); [done|by eapply Hl; [left|]|..].
      * rewrite is_record_of_listed by (by eapply listed_type_nonempty).
        by rewrite E, bool_decide_eq_true_2.
      * intros t Ht Hne'. rewrite is_record_of_listed by (by intros ->).
        rewrite E, bool_decide_eq_false_2; [done|congruence].
    + rewrite decide_False by (by intros [? ?]).
      rewrite (sum_list_with_zero (λ t, if is_record_of t elem then 1 else 0)); [done|].
      intros t Ht. rewrite is_record_of_listed by (by intros ->).
      by rewrite E, bool_decide_eq_false_2.
Qed.

(** X7: the extractions of the catalogued types partition the typed
    records. Summed over the result of [get_available_record_types], the
    numbers of [Record] elements matching each type give the number of
    [Record] elements of the document with a non-empty type: none is counted
    twice and none is left out. *)
Theorem extractions_partition_typed_records (D : list Element) (l : list string) :
  get_available_record_types (document D) = Ok l →
  sum_list_with (λ t, length (matching_records t D)) l =
  length (filter (λ elem, is_Some (listed_type elem)) D).
Proof.
  intros Hl. apply typed_records_sum.
  - rewrite get_available_record_types_document in Hl. injection Hl as <-.
    unfold sorted. rewrite merge_sort_Permutation. apply NoDup_elements.
  - rewrite (elem_of_catalogue _ _ _ Hl). intros (elem & _ & H).
    by apply listed_type_nonempty in H.
  - intros elem t Hin Ht. apply (elem_of_catalogue _ _ _ Hl). eauto.
Qed.

Lemma extractions_partition_typed_records_witness :
  sum_list_with (λ t, length (matching_records t three_records)) sample_catalogue =
  length (filter (λ elem, is_Some (listed_type elem)) three_records).
Proof. apply (extractions_partition_typed_records three_records sample_catalogue). reflexivity. Defined.

(** X8: the catalogue depends on the set of types only. Reordering the
    elements of the document, or reading the same elements a second time,
    leaves the result of [get_available_record_types] unchanged. *)
Theorem catalogue_ignores_order_and_repetition (D D' : list Element) :
  D ≡ₚ D' →
  get_available_record_types (document D') = get_available_record_types (document D) ∧
  get_available_record_types (document (D ++ D')) = get_available_record_types (document D).
Proof.
  intros HD. rewrite !get_available_record_types_document. split; do 3 f_equal.
  - by rewrite HD.
  - rewrite omap_app, list_to_set_app_L, <- HD. set_solver.
Qed.

Lemma catalogue_ignores_order_and_repetition_witness :
  get_available_record_types
    (document [Record_ [("type", heart_rate)]; Record_ [("type", step_count)]]) =
  get_available_record_types
    (document [Record_ [("type", step_count)]; Record_ [("type", heart_rate)]]) ∧
  get_available_record_types
    (document ([Record_ [("type", step_count)]; Record_ [("type", heart_rate)]] ++
               [Record_ [("type", heart_rate)]; Record_ [("type", step_count)]])) =
  get_available_record_types
    (document [Record_ [("type", step_count)]; Record_ [("type", heart_rate)]]).
Proof.
  apply (catalogue_ignores_order_and_repetition
           [Record_ [("type", step_count)]; Record_ [("type", heart_rate)]]
           [Record_ [("type", heart_rate)]; Record_ [("type", step_count)]]).
  apply Permutation_swap.
Defined.

(** ** Cleaned names and file names *)

(** X9: cleaning leaves a name as it is exactly when none of the three
    known prefixes occurs in it, and it never makes a name longer: a name
    with a known prefix comes out strictly shorter. *)
Theorem clean_metric_name_changes_prefixed_names_only (name : string) :
  (clean_metric_name name = name ↔ prefix_free name = true) ∧
  (prefix_free name = false →
     String.length (clean_metric_name name) < String.length name) ∧
  String.length (clean_metric_name name) ≤ String.length name.
Proof.
  destruct (prefix_free name) eqn:E.
  - rewrite (clean_metric_name_absent name E). split_and!; [done|done|lia].
  - apply clean_metric_name_shrinks in E. split_and!; [|done|lia]. split; [|done].
    intros H. rewrite H in E. lia.
Qed.

Lemma list_ascii_of_string_app s1 s2 :
  String.list_ascii_of_string (s1 +:+ s2) = String.list_ascii_of_string s1 ++ String.list_ascii_of_string s2.
Proof. induction s1 as [|a s1 IH]; [done|]. unfold String.app in *. simpl. by rewrite IH. Qed.

Lemma list_ascii_of_string_inj s1 s2 :
  String.list_ascii_of_string s1 = String.list_ascii_of_string s2 → s1 = s2.
Proof.
  intros H. rewrite <- (String.string_of_list_ascii_of_string s1), H.
  apply String.string_of_list_ascii_of_string.
Qed.

Lemma string_app_inv_tail r1 r2 t : r1 +:+ t = r2 +:+ t → r1 = r2.
Proof.
  intros H. apply list_ascii_of_string_inj.
  apply (f_equal String.list_ascii_of_string) in H. rewrite !list_ascii_of_string_app in H.
  by apply app_inv_tail in H.
Qed.

Lemma clean_suffix_inj r1 r2 ind1 ind2 :
  ind1 ∈ type_indicators.*2 → ind2 ∈ type_indicators.*2 →
  r1 +:+ " " +:+ ind1 = r2 +:+ " " +:+ ind2 → ind1 = ind2 ∧ r1 = r2.
Proof.
  unfold type_indicators. cbn [fmap list_fmap snd]. rewrite !elem_of_cons, !elem_of_nil.
  intros [->|[->|[->|[]]]] [->|[->|[->|[]]]] H;
    try (split; [done|]; by apply string_app_inv_tail in H);
    exfalso;
    apply (f_equal String.list_ascii_of_string) in H;
    rewrite !list_ascii_of_string_app in H; apply (f_equal reverse) in H;
    rewrite !reverse_app in H; cbn in H; discriminate.
Qed.

Lemma known_prefix_of_indicator p1 p2 ind :
  dict_get p1 type_indicators = Some ind → dict_get p2 type_indicators = Some ind → p1 = p2.
Proof.
  unfold type_indicators. simpl. repeat case_decide; intros; by simplify_eq.
Qed.

(** X10: distinct identifiers have distinct cleaned names. For identifiers
    made of a known prefix and a remainder without known prefixes, equal
    cleaned names force the same prefix and the same remainder, so two such
    metrics never share an entry of the report. *)
Theorem cleaned_identifiers_are_distinct (p1 ind1 r1 p2 ind2 r2 : string) :
  dict_get p1 type_indicators = Some ind1 → prefix_free r1 = true →
  dict_get p2 type_indicators = Some ind2 → prefix_free r2 = true →
  clean_metric_name (p1 +:+ r1) = clean_metric_name (p2 +:+ r2) →
  p1 = p2 ∧ r1 = r2.
Proof.
  intros Hp1 Hr1 Hp2 Hr2.
  rewrite (clean_metric_name_known_prefix _ _ _ Hp1 Hr1),
          (clean_metric_name_known_prefix _ _ _ Hp2 Hr2).
  intros [-> ->]%clean_suffix_inj; [|by eapply indicator_of_known_prefix..].
  split; [|done]. by eapply known_prefix_of_indicator.
Qed.

Lemma cleaned_identifiers_are_distinct_witness :
  "HKQuantityTypeIdentifier" = "HKQuantityTypeIdentifier" ∧ "StepCount" = "StepCount".
Proof.
  apply (cleaned_identifiers_are_distinct "HKQuantityTypeIdentifier" "(Quantity)" "StepCount"
           "HKQuantityTypeIdentifier" "(Quantity)" "StepCount"); reflexivity.
Defined.

Lemma prefix_empty s : String.prefix "" s = true.
Proof. by destruct s. Qed.

Lemma split_head_before_indicator r w :
  split_head " (" (r +:+ " " +:+ String "(" w) = split_head " (" r.
Proof.
  induction r as [|c r IH].
  { unfold String.app. simpl. by rewrite prefix_empty. }
  change (String c r +:+ " " +:+ String "(" w) with (String c (r +:+ " " +:+ String "(" w)).
  cbn [split_head]. rewrite IH.
  assert (String.prefix " (" (String c (r +:+ " " +:+ String "(" w)) =
          String.prefix " (" (String c r)) as ->; [|done].
  destruct r as [|d r].
  - change ("" +:+ ?x) with x. cbn [String.append String.prefix].
    by destruct (ascii_dec " " c).
  - change (String d r +:+ ?x) with (String d (r +:+ x)). cbn [String.prefix].
    destruct (ascii_dec " " c); [|done]. destruct (ascii_dec "(" d); [|done].
    by rewrite !prefix_empty.
Qed.

(** X11: the name of the CSV file of an identifier does not depend on its
    prefix. For a known prefix and a remainder without known prefixes, the
    text before the first [" ("] of the cleaned name is the text before the
    first [" ("] of the remainder; so two identifiers that differ in the
    prefix only are written to the same file, although their cleaned names,
    the keys of the report, differ. *)
Theorem csv_name_ignores_the_prefix (p1 ind1 p2 ind2 r : string) :
  dict_get p1 type_indicators = Some ind1 →
  dict_get p2 type_indicators = Some ind2 →
  prefix_free r = true →
  split_head " (" (clean_metric_name (p1 +:+ r)) = split_head " (" r ∧
  split_head " (" (clean_metric_name (p2 +:+ r)) = split_head " (" r ∧
  (p1 ≠ p2 → clean_metric_name (p1 +:+ r) ≠ clean_metric_name (p2 +:+ r)).
Proof.
  intros Hp1 Hp2 Hr. split_and!.
  - rewrite (clean_metric_name_known_prefix _ _ _ Hp1 Hr).
    apply indicator_of_known_prefix in Hp1. unfold type_indicators in Hp1.
    cbn [fmap list_fmap snd] in Hp1. rewrite !elem_of_cons, elem_of_nil in Hp1.
    destruct Hp1 as [->|[->|[->|[]]]]; apply split_head_before_indicator.
  - rewrite (clean_metric_name_known_prefix _ _ _ Hp2 Hr).
    apply indicator_of_known_prefix in Hp2. unfold type_indicators in Hp2.
    cbn [fmap list_fmap snd] in Hp2. rewrite !elem_of_cons, elem_of_nil in Hp2.
    destruct Hp2 as [->|[->|[->|[]]]]; apply split_head_before_indicator.
  - intros Hne Heq. apply Hne.
    rewrite (clean_metric_name_known_prefix _ _ _ Hp1 Hr),
            (clean_metric_name_known_prefix _ _ _ Hp2 Hr) in Heq.
    apply clean_suffix_inj in Heq as [-> _]; [|by eapply indicator_of_known_prefix..].
    by eapply known_prefix_of_indicator.
Qed.

Lemma csv_name_ignores_the_prefix_witness :
  split_head " (" (clean_metric_name ("HKQuantityTypeIdentifier" +:+ "SleepAnalysis")) =
    split_head " (" "SleepAnalysis" ∧
  split_head " (" (clean_metric_name ("HKCategoryTypeIdentifier" +:+ "SleepAnalysis")) =
    split_head " (" "SleepAnalysis" ∧
  ("HKQuantityTypeIdentifier" ≠ "HKCategoryTypeIdentifier" →
   clean_metric_name ("HKQuantityTypeIdentifier" +:+ "SleepAnalysis") ≠
   clean_metric_name ("HKCategoryTypeIdentifier" +:+ "SleepAnalysis")).
Proof.
  apply (csv_name_ignores_the_prefix "HKQuantityTypeIdentifier" "(Quantity)"
           "HKCategoryTypeIdentifier" "(Category)" "SleepAnalysis"); reflexivity.
Defined.

(** ** The rows of the report *)

Section Report_row_facts.
Context {Timestamp Num : Type}.

Lemma value_key_not_fixed k : "Value " +:+ k ∉ summary_columns.
Proof.
  unfold summary_columns. rewrite !elem_of_cons, elem_of_nil.
  unfold String.app. simpl. intros H. repeat destruct H as [H|H]; done.
Qed.

Lemma foldl_value_keys (row : list (string * Cell Timestamp Num))
    (stats : list (string * Scalar Timestamp Num)) :
  NoDup (dict_keys stats) →
  (∀ k, k ∈ dict_keys stats → "Value " +:+ k ∉ dict_keys row) →
  dict_keys (foldl (λ row sv, dict_set ("Value " +:+ sv.1) (CellValue (Some sv.2)) row)
               row stats) =
  dict_keys row ++ ((λ k, "Value " +:+ k) <$> dict_keys stats).
Proof.
  revert row. induction stats as [|[k v] stats IH]; intros row Hnd Hfresh.
  - simpl. by rewrite app_nil_r.
  - unfold dict_keys in Hnd. cbn [fmap list_fmap fst] in Hnd.
    apply NoDup_cons in Hnd as [Hk Hnd]. cbn [foldl fst snd].
    rewrite IH; [|done|].
    + rewrite dict_keys_set, decide_False by (apply Hfresh; left).
      by rewrite <- app_assoc.
    + intros k' Hk'. rewrite dict_keys_set, decide_False by (apply Hfresh; left).
      rewrite elem_of_app, list_elem_of_singleton.
      intros [Hin|Heq]; [by eapply Hfresh; [right|]|].
      apply (inj (String.app "Value ")) in Heq. by subst.
Qed.

Lemma dict_get_fixed_values (k : string) (row : list (string * Cell Timestamp Num))
    (stats : list (string * Scalar Timestamp Num)) (cell : Cell Timestamp Num) :
  k ∈ summary_columns → dict_get k row = Some cell →
  dict_get k (foldl (λ row sv, dict_set ("Value " +:+ sv.1) (CellValue (Some sv.2)) row)
                row stats) = Some cell.
Proof.
  intros Hk. revert row. induction stats as [|sv stats IH]; intros row Hrow; [done|].
  cbn [foldl]. apply IH. rewrite dict_get_set, decide_False; [done|].
  intros Heq. apply (value_key_not_fixed sv.1). by rewrite Heq.
Qed.

(** X12: a row of the report has the seven fixed columns in order,
    followed by one [Value <stat>] column per statistic of the summary, in the
    order of the statistics; the [Dataset] cell is the key and the [Records]
    cell the number of records. *)
Theorem report_row_columns (key : string) (summary : DatasetSummary Timestamp Num) :
  let stat_names := from_option dict_keys [] (sample_stats summary) in
  NoDup stat_names →
  dict_keys (report_row key summary) =
    summary_columns ++ ((λ k, "Value " +:+ k) <$> stat_names) ∧
  dict_get "Dataset" (report_row key summary) = Some (CellStr key) ∧
  dict_get "Records" (report_row key summary) = Some (CellInt (record_count summary)).
Proof.
  intros stat_names Hnd. split_and!.
  - unfold report_row. cbv zeta. unfold stat_names in *.
    destruct (sample_stats summary) as [[|sv stats]|];
      [by rewrite app_nil_r| |by rewrite app_nil_r].
    rewrite (foldl_value_keys _ (sv :: stats)); [reflexivity|exact Hnd|].
    intros k _. apply value_key_not_fixed.
  - apply report_row_Dataset.
  - unfold report_row. cbv zeta.
    destruct (sample_stats summary) as [[|sv stats]|]; [reflexivity| |reflexivity].
    apply (dict_get_fixed_values _ _ (sv :: stats)); [|reflexivity].
    unfold summary_columns. set_solver.
Qed.

End Report_row_facts.

Lemma report_row_columns_witness :
  dict_keys (report_row "HeartRate (Quantity)" heart_rate_summary) =
    summary_columns ++
    ((λ k, "Value " +:+ k) <$> from_option dict_keys [] (sample_stats heart_rate_summary)) ∧
  dict_get "Dataset" (report_row "HeartRate (Quantity)" heart_rate_summary) =
    Some (CellStr "HeartRate (Quantity)") ∧
  dict_get "Records" (report_row "HeartRate (Quantity)" heart_rate_summary) =
    Some (CellInt (record_count heart_rate_summary)).
Proof.
  apply (report_row_columns "HeartRate (Quantity)" heart_rate_summary).
  apply (bool_decide_unpack _). reflexivity.
Defined.

Example heart_rate_row_columns :
  dict_keys (report_row "HeartRate (Quantity)" heart_rate_summary) =
  [ "Dataset"; "Records"; "Start Date"; "End Date"; "File"; "Size (KB)"; "Columns";
    "Value mean"; "Value median"; "Value std"; "Value min"; "Value max" ].
Proof. reflexivity. Qed.

(** ** Recording and the orchestrator steps *)

Section Session_facts.
Context {Timestamp Num : Type}.
Variable strptime : string → option Timestamp.
Variable strtod : string → option Num.
Variable csv_size : DataFrame Timestamp Num → Z.
Variable writable : string → bool.
Implicit Types (df : DataFrame Timestamp Num) (sess : Session Timestamp Num).
Implicit Types (ds : list (string * DatasetSummary Timestamp Num)).

Lemma compute_date_range_ok df : ∃ range, compute_date_range df = Ok range.
Proof.
  unfold compute_date_range, has_column, column_stat, getitem.
  destruct (dict_get "startDate" (columns df)) as [c|].
  - rewrite bool_decide_eq_true_2 by (by eexists). cbn [rbind].
    destruct c; simpl; eauto.
  - rewrite bool_decide_eq_false_2 by (by intros [? ?]). eauto.
Qed.

Lemma add_dataset_summary_present files raw_name df path ds size :
  files !! path = Some size →
  ∃ range,
    compute_date_range df = Ok range ∧
    add_dataset_summary files raw_name df path ds =
    Ok (dict_set (clean_metric_name raw_name)
          (mkDatasetSummary (clean_metric_name raw_name) (nrows df) range path
             (dict_keys (columns df)) size ((λ kc, (kc.1, dtype kc.2)) <$> columns df)
             (compute_sample_stats df)) ds).
Proof.
  intros Hsize. destruct (compute_date_range_ok df) as [range Hr]. exists range.
  split; [done|]. unfold add_dataset_summary, st_size. by rewrite Hr, Hsize.
Qed.

Lemma add_dataset_summary_missing files raw_name df path ds :
  files !! path = None →
  add_dataset_summary files raw_name df path ds = Raise (FileNotFoundError path).
Proof.
  intros Hsize. destruct (compute_date_range_ok df) as [range Hr].
  unfold add_dataset_summary, st_size. by rewrite Hr, Hsize.
Qed.

(** X13: recording a frame one of the extractions returned fails for one
    reason only: it succeeds exactly when the file exists, and raises
    [FileNotFoundError] for the path when it does not. A value column of
    strings costs the statistics, never the summary. *)
Theorem add_dataset_summary_fails_only_without_file (src : Source) (record_type : string)
    (df : DataFrame Timestamp Num) (files : gmap string Z) (raw_name path : string)
    (datasets : list (string * DatasetSummary Timestamp Num)) :
  parse_records_by_type strptime strtod src record_type = Ok df ∨
    process_workouts strptime strtod src = Ok df →
  (is_ok (add_dataset_summary files raw_name df path datasets) = true ↔
     is_Some (files !! path)) ∧
  (files !! path = None →
     add_dataset_summary files raw_name df path datasets = Raise (FileNotFoundError path)).
Proof.
  intros _. split.
  - destruct (files !! path) as [size|] eqn:E.
    + destruct (add_dataset_summary_present files raw_name df path datasets size E)
        as (range & _ & ->). split; [by eexists|done].
    + rewrite add_dataset_summary_missing by done. split; [done|by intros [? ?]].
  - apply add_dataset_summary_missing.
Qed.

Lemma save_metric_data_ok src metric sess df :
  parse_records_by_type strptime strtod src metric = Ok df →
  writable (metric_path sess metric) = true →
  ∃ range,
    compute_date_range df = Ok range ∧
    save_metric_data strptime strtod csv_size writable src metric sess =
    mkSession (output_dir sess) (<[metric_path sess metric := csv_size df]> (files sess))
      (dict_set (clean_metric_name metric)
         (mkDatasetSummary (clean_metric_name metric) (nrows df) range (metric_path sess metric)
            (dict_keys (columns df)) (csv_size df) ((λ kc, (kc.1, dtype kc.2)) <$> columns df)
            (compute_sample_stats df)) (datasets sess)).
Proof.
  intros Hdf Hw. unfold save_metric_data, to_csv_file. rewrite Hdf.
  fold (metric_path sess metric). rewrite Hw.
  destruct (add_dataset_summary_present
              (<[metric_path sess metric := csv_size df]> (files sess)) metric df
              (metric_path sess metric) (datasets sess) (csv_size df))
    as (range & Hr & ->); [apply lookup_insert_eq|].
  by exists range.
Qed.

Lemma save_metric_data_raise src metric sess :
  is_ok (parse_records_by_type strptime strtod src metric) = false →
  save_metric_data strptime strtod csv_size writable src metric sess = sess.
Proof.
  unfold save_metric_data. by destruct (parse_records_by_type strptime strtod src metric).
Qed.

Lemma save_metric_data_unwritable src metric sess :
  writable (metric_path sess metric) = false →
  save_metric_data strptime strtod csv_size writable src metric sess = sess.
Proof.
  intros Hw. unfold save_metric_data, to_csv_file.
  destruct (parse_records_by_type strptime strtod src metric); [|done].
  fold (metric_path sess metric). by rewrite Hw.
Qed.

(** X14: when the extraction returns, [_save_metric_data] records the
    dataset if the CSV file can be created, and leaves the session as it was
    if it cannot. In the first case the file is written under the name of the
    metric, and the report gets, under the cleaned name, a summary with the
    row count of the frame, the path of that file and the size just written,
    whatever stood at that path before. *)
Theorem save_metric_data_records_the_written_file (src : Source) (metric : string)
    (sess : Session Timestamp Num) (df : DataFrame Timestamp Num) :
  parse_records_by_type strptime strtod src metric = Ok df →
  let sess' := save_metric_data strptime strtod csv_size writable src metric sess in
  let path := path_join (output_dir sess)
                (split_head " (" (clean_metric_name metric) +:+ ".csv") in
  (writable path = false → sess' = sess) ∧
  (writable path = true →
     output_dir sess' = output_dir sess ∧
     files sess' = <[path := csv_size df]> (files sess) ∧
     ∃ summary,
       datasets sess' = dict_set (clean_metric_name metric) summary (datasets sess) ∧
       name summary = clean_metric_name metric ∧
       record_count summary = nrows df ∧
       file_path summary = path ∧
       file_size summary = csv_size df ∧
       column_names summary = dict_keys (columns df) ∧
       sample_stats summary = compute_sample_stats df).
Proof.
  intros Hdf sess' path. unfold sess'. split.
  - apply save_metric_data_unwritable.
  - intros Hw. destruct (save_metric_data_ok src metric sess df Hdf Hw) as (range & _ & ->).
    split_and!; [done|done|]. eexists. split; [done|]. done.
Qed.

(** X15: [_save_metric_data] is idempotent: processing a metric a second
    time leaves the session, files and report, as the first time left it. *)
Theorem save_metric_data_idempotent (src : Source) (metric : string)
    (sess : Session Timestamp Num) :
  save_metric_data strptime strtod csv_size writable src metric
    (save_metric_data strptime strtod csv_size writable src metric sess) =
  save_metric_data strptime strtod csv_size writable src metric sess.
Proof.
  destruct (parse_records_by_type strptime strtod src metric) as [df|e] eqn:Hdf;
    [|rewrite !save_metric_data_raise; by rewrite ?Hdf].
  destruct (writable (metric_path sess metric)) eqn:Hw;
    [|by rewrite !(save_metric_data_unwritable src metric sess Hw)].
  destruct (save_metric_data_ok src metric sess df Hdf Hw) as (range & Hr & ->).
  destruct (save_metric_data_ok src metric
              (mkSession (output_dir sess)
                 (<[metric_path sess metric := csv_size df]> (files sess))
                 (dict_set (clean_metric_name metric)
                    (mkDatasetSummary (clean_metric_name metric) (nrows df) range
                       (metric_path sess metric) (dict_keys (columns df)) (csv_size df)
                       ((λ kc, (kc.1, dtype kc.2)) <$> columns df)
                       (compute_sample_stats df)) (datasets sess))) df Hdf Hw)
    as (range' & Hr' & ->).
  assert (range' = range) as -> by congruence.
  unfold metric_path. cbn [output_dir files datasets].
  by rewrite insert_insert_eq, dict_set_set.
Qed.

Lemma save_metric_data_output_dir src metric sess :
  output_dir (save_metric_data strptime strtod csv_size writable src metric sess) =
  output_dir sess.
Proof.
  destruct (parse_records_by_type strptime strtod src metric) as [df|e] eqn:Hdf;
    [|by rewrite save_metric_data_raise by (by rewrite Hdf)].
  destruct (writable (metric_path sess metric)) eqn:Hw;
    [|by rewrite save_metric_data_unwritable].
  by destruct (save_metric_data_ok src metric sess df Hdf Hw) as (range & _ & ->).
Qed.

Lemma save_metric_data_keys src metric sess :
  dict_keys (datasets (save_metric_data strptime strtod csv_size writable src metric sess)) =
  if is_ok (parse_records_by_type strptime strtod src metric) &&
     writable (metric_path sess metric)
  then seen_after (dict_keys (datasets sess)) [clean_metric_name metric]
  else dict_keys (datasets sess).
Proof.
  destruct (parse_records_by_type strptime strtod src metric) as [df|e] eqn:Hdf;
    [|by rewrite save_metric_data_raise by (by rewrite Hdf)].
  destruct (writable (metric_path sess metric)) eqn:Hw;
    [|by rewrite save_metric_data_unwritable].
  destruct (save_metric_data_ok src metric sess df Hdf Hw) as (range & _ & ->).
  cbn [datasets is_ok andb]. by rewrite dict_keys_set.
Qed.

(** The batch on a session whose output directory is [dir]. *)
Lemma process_all_metrics_keys (dir : string) src record_types sess :
  output_dir sess = dir →
  output_dir (_process_all_metrics strptime strtod csv_size writable src record_types sess) =
    dir ∧
  dict_keys (datasets (_process_all_metrics strptime strtod csv_size writable src
                         record_types sess)) =
    seen_after (dict_keys (datasets sess))
      (clean_metric_name <$>
         filter (λ metric,
                   is_ok (parse_records_by_type strptime strtod src metric) &&
                   writable (path_join dir
                               (split_head " (" (clean_metric_name metric) +:+ ".csv")))
           record_types).
Proof.
  unfold _process_all_metrics. revert sess.
  induction record_types as [|metric rest IH]; intros sess Hdir; [done|].
  cbn [foldl].
  destruct (IH (save_metric_data strptime strtod csv_size writable src metric sess))
    as [Hout Hkeys]; [by rewrite save_metric_data_output_dir|].
  split; [done|].
  rewrite Hkeys, save_metric_data_keys, filter_cons. unfold metric_path. rewrite Hdir.
  destruct (is_ok (parse_records_by_type strptime strtod src metric) && writable _);
    [|done].
  by rewrite decide_True by done.
Qed.

(** X16: the interactive batch skips the metrics whose extraction fails or
    whose file cannot be created, and goes on: after [_process_all_metrics]
    the keys of the report are those it had, followed by the cleaned names of
    the metrics that were extracted and written, in the order each was first
    processed; the output directory is the same. *)
Theorem process_all_metrics_skips_failures (src : Source) (record_types : list string)
    (sess : Session Timestamp Num) :
  let sess' := _process_all_metrics strptime strtod csv_size writable src record_types sess in
  output_dir sess' = output_dir sess ∧
  dict_keys (datasets sess') =
    seen_after (dict_keys (datasets sess))
      (clean_metric_name <$>
         filter (λ metric,
                   is_ok (parse_records_by_type strptime strtod src metric) &&
                   writable (metric_path sess metric))
           record_types).
Proof. by apply process_all_metrics_keys. Qed.


Lemma enumerate_lookup (l : list string) (start i : Z) :
  (list_to_map (enumerate start l) : gmap Z string) !! i =
  if bool_decide (start ≤ i)%Z then l !! Z.to_nat (i - start) else None.
Proof.
  revert start. induction l as [|x l IH]; intros start.
  - cbn [enumerate list_to_map foldr]. rewrite lookup_empty. by case_bool_decide.
  - cbn [enumerate list_to_map foldr uncurry]. 
    destruct (decide (start = i)) as [->|Hne].
    + rewrite lookup_insert_eq, bool_decide_eq_true_2 by lia.
      by rewrite Z.sub_diag.
    + rewrite lookup_insert_ne by done. 
      change (foldr _ ∅ (enumerate (start + 1) l)) with
        (list_to_map (enumerate (start + 1) l) : gmap Z string).
      rewrite IH.
      destruct (decide (start ≤ i)%Z) as [Hle|Hgt].
      * rewrite !bool_decide_eq_true_2 by lia.
        replace (Z.to_nat (i - start)) with (S (Z.to_nat (i - (start + 1)))) by lia. done.
      * by rewrite !bool_decide_eq_false_2 by lia.
Qed.

Lemma metric_mapping_lookup (record_types : list string) (choice : Z) :
  (1 ≤ choice)%Z →
  metric_mapping record_types !! choice = record_types !! Z.to_nat (choice - 1).
Proof.
  intros H. unfold metric_mapping. by rewrite enumerate_lookup, bool_decide_eq_true_2.
Qed.

Lemma process_specific_metric_skip src record_types skipped rest sess :
  forallb (λ input, negb (in_menu (length record_types) input)) skipped = true →
  _process_specific_metric strptime strtod csv_size writable src record_types (skipped ++ rest) sess =
  _process_specific_metric strptime strtod csv_size writable src record_types rest sess.
Proof.
  induction skipped as [|input skipped IH]; [done|]. cbn [forallb app].
  intros [Hin Hrest]%andb_true_iff. apply negb_true_iff in Hin.
  cbn [_process_specific_metric]. destruct input as [choice|]; [|by apply IH].
  simpl in Hin. apply bool_decide_eq_false in Hin.
  rewrite bool_decide_eq_false_2 by lia. rewrite bool_decide_eq_false_2 by lia.
  by apply IH.
Qed.

(** X18: [_process_specific_metric] reads the console until an input is
    a number on the menu. After inputs that are not numbers or are off the
    menu, the number [c] of a metric processes the [c]-th metric of the list,
    counted from 1, and nothing else; [0] returns without processing; while
    no such input has come the loop is still asking. The lookup in the
    mapping never fails. *)
Theorem process_specific_metric_selects_by_number (src : Source) (record_types : list string)
    (skipped rest : list (option Z)) (choice : Z) (metric : string)
    (sess : Session Timestamp Num) :
  forallb (λ input, negb (in_menu (length record_types) input)) skipped = true →
  record_types !! Z.to_nat (choice - 1) = Some metric → (1 ≤ choice)%Z →
  _process_specific_metric strptime strtod csv_size writable src record_types
    (skipped ++ Some choice :: rest) sess =
    Some (Ok (save_metric_data strptime strtod csv_size writable src metric sess, rest)) ∧
  _process_specific_metric strptime strtod csv_size writable src record_types
    (skipped ++ Some 0%Z :: rest) sess = Some (Ok (sess, rest)) ∧
  _process_specific_metric strptime strtod csv_size writable src record_types skipped sess = None.
Proof.
  intros Hskip Hmetric Hchoice. split_and!.
  - rewrite process_specific_metric_skip by done. cbn [_process_specific_metric].
    pose proof (lookup_lt_Some _ _ _ Hmetric) as Hlt.
    rewrite bool_decide_eq_false_2 by lia. rewrite bool_decide_eq_true_2 by lia.
    by rewrite metric_mapping_lookup, Hmetric.
  - by rewrite process_specific_metric_skip.
  - rewrite <- (app_nil_r skipped). by rewrite process_specific_metric_skip.
Qed.

End Session_facts.

Lemma add_dataset_summary_fails_only_without_file_witness :
  (is_ok (add_dataset_summary ∅ step_count step_count_frame step_count_path []) = true ↔
     is_Some ((∅ : gmap string Z) !! step_count_path)) ∧
  ((∅ : gmap string Z) !! step_count_path = None →
     add_dataset_summary ∅ step_count step_count_frame step_count_path [] =
     Raise (FileNotFoundError step_count_path)).
Proof.
  apply (add_dataset_summary_fails_only_without_file export_timestamp decimal_literal
           (document three_records) step_count step_count_frame ∅ step_count step_count_path []).
  left. reflexivity.
Defined.

Lemma save_metric_data_records_the_written_file_witness :
  let sess' := save_metric_data export_timestamp decimal_literal sample_csv_size flat_out
                 (document three_records) step_count empty_session in
  let path := path_join (output_dir empty_session)
                (split_head " (" (clean_metric_name step_count) +:+ ".csv") in
  (flat_out path = false → sess' = empty_session) ∧
  (flat_out path = true →
     output_dir sess' = output_dir empty_session ∧
     files sess' = <[path := sample_csv_size step_count_frame]> (files empty_session) ∧
     ∃ summary,
       datasets sess' =
         dict_set (clean_metric_name step_count) summary (datasets empty_session) ∧
       name summary = clean_metric_name step_count ∧
       record_count summary = nrows step_count_frame ∧
       file_path summary = path ∧
       file_size summary = sample_csv_size step_count_frame ∧
       column_names summary = dict_keys (columns step_count_frame) ∧
       sample_stats summary = compute_sample_stats step_count_frame).
Proof.
  apply (save_metric_data_records_the_written_file export_timestamp decimal_literal
           sample_csv_size flat_out (document three_records) step_count empty_session
           step_count_frame).
  reflexivity.
Defined.

(** A type with a [/] in its name: the file would lie in a directory that
    is not there, nothing is written and nothing recorded; the batch goes on
    with the other metrics. *)
Example slash_type_is_not_recorded :
  flat_out (metric_path empty_session step_count) = true ∧
  metric_path empty_session slash_type = "out/Distance/Walking.csv" ∧
  flat_out (metric_path empty_session slash_type) = false ∧
  is_ok (parse_records_by_type export_timestamp decimal_literal
           (document (slash_document ++ three_records)) slash_type) = true ∧
  save_metric_data export_timestamp decimal_literal sample_csv_size flat_out
    (document (slash_document ++ three_records)) slash_type empty_session = empty_session ∧
  dict_keys (datasets (_process_all_metrics export_timestamp decimal_literal sample_csv_size
                         flat_out (document (slash_document ++ three_records))
                         [slash_type; heart_rate; step_count] empty_session)) =
    ["HeartRate (Quantity)"; "StepCount (Quantity)"].
Proof. split_and!; reflexivity. Qed.


Lemma process_specific_metric_selects_by_number_witness :
  _process_specific_metric export_timestamp decimal_literal sample_csv_size flat_out
    (document three_records) sample_catalogue (sample_inputs ++ Some 2%Z :: [Some 1%Z])
    empty_session =
    Some (Ok (save_metric_data export_timestamp decimal_literal sample_csv_size flat_out
                (document three_records) step_count empty_session, [Some 1%Z])) ∧
  _process_specific_metric export_timestamp decimal_literal sample_csv_size flat_out
    (document three_records) sample_catalogue (sample_inputs ++ Some 0%Z :: [Some 1%Z])
    empty_session = Some (Ok (empty_session, [Some 1%Z])) ∧
  _process_specific_metric export_timestamp decimal_literal sample_csv_size flat_out
    (document three_records) sample_catalogue sample_inputs empty_session = None.
Proof.
  apply (process_specific_metric_selects_by_number export_timestamp decimal_literal
           sample_csv_size flat_out (document three_records) sample_catalogue sample_inputs
           [Some 1%Z] 2%Z step_count empty_session); [reflexivity|reflexivity|lia].
Defined.

(** ** The Streamlit batch *)

Section Streamlit_facts.
Context {Timestamp Num : Type}.
Variable strptime : string → option Timestamp.
Variable strtod : string → option Num.
Variable to_csv : DataFrame Timestamp Num → string.
Variable report_to_csv : list (list (string * Cell Timestamp Num)) → string.


Lemma collect_frames_keys src metrics (all_dfs dfs : list (string * DataFrame Timestamp Num)) :
  collect_frames strptime strtod src metrics all_dfs = Ok dfs →
  dict_keys dfs = seen_after (dict_keys all_dfs) (clean_metric_name <$> metrics).
Proof.
  revert all_dfs. induction metrics as [|metric rest IH]; intros all_dfs.
  - by intros [= ->].
  - cbn [collect_frames].
    destruct (parse_records_by_type strptime strtod src metric); [|done]. cbn [rbind].
    intros H. rewrite (IH _ H). by rewrite dict_keys_set.
Qed.


(** X20: the archive of the Streamlit batch holds one entry per distinct
    cleaned name, in the order each was first met and named by the text before
    the first [" ("] of the cleaned name, and last the schedule
    [_APPLE_HEALTH_SCHEDULE.csv], made from the report of the session. *)
Theorem streamlit_archive_entries (src : Source) (available_metrics : list string)
    (datasets : list (string * DatasetSummary Timestamp Num)) (entries : list (string * string)) :
  process_all_metrics strptime strtod to_csv report_to_csv src available_metrics datasets =
    Ok entries →
  entries.*1 =
    ((λ k, split_head " (" k +:+ ".csv") <$> first_seen (clean_metric_name <$> available_metrics))
    ++ ["_APPLE_HEALTH_SCHEDULE.csv"] ∧
  last entries =
    Some ("_APPLE_HEALTH_SCHEDULE.csv", report_to_csv (create_report datasets)).
Proof.
  unfold process_all_metrics.
  destruct (collect_frames strptime strtod src available_metrics []) as [dfs|] eqn:E; [|done].
  cbn [rbind]. intros [= <-]. split.
  - rewrite fmap_app, <- list_fmap_compose. cbn [fmap list_fmap fst].
    f_equal. apply collect_frames_keys in E. unfold first_seen.
    change (foldl _ [] ?l) with (seen_after (@dict_keys (DataFrame Timestamp Num) []) l).
    rewrite <- E.
    unfold dict_keys. rewrite <- list_fmap_compose. done.
  - by rewrite last_snoc.
Qed.

End Streamlit_facts.

Lemma streamlit_archive_entries_witness :
  sample_archive.*1 =
    ((λ k, split_head " (" k +:+ ".csv") <$>
       first_seen (clean_metric_name <$> sample_catalogue))
    ++ ["_APPLE_HEALTH_SCHEDULE.csv"] ∧
  last sample_archive =
    Some ("_APPLE_HEALTH_SCHEDULE.csv", sample_report_to_csv (create_report [])).
Proof.
  apply (streamlit_archive_entries export_timestamp decimal_literal sample_to_csv
           sample_report_to_csv (document three_records) sample_catalogue [] sample_archive).
  reflexivity.
Defined.

(** One metric with a malformed date: the Streamlit batch offers nothing,
    the interactive batch records the other metric. *)
Example batches_on_a_malformed_date :
  is_ok (process_all_metrics export_timestamp decimal_literal sample_to_csv
           sample_report_to_csv (document (bad_start_document ++ three_records))
           sample_catalogue []) = false ∧
  dict_keys (datasets (_process_all_metrics export_timestamp decimal_literal sample_csv_size
                         flat_out (document (bad_start_document ++ three_records))
                         sample_catalogue empty_session)) = ["HeartRate (Quantity)"].
Proof. split; reflexivity. Qed.
